(** * Cloudflare provider: Origin CA certificate resource and DNS record
      state migration

    Shallow embedding of
      - [cloudflare/resource_cloudflare_origin_ca_certificate.go]
        (the schema, Create, Read, Delete, validateCSR), and
      - [cloudflare/resource_cloudflare_record_migrate_test.go]: the test
        loop, its table and mock server, and the DNS record state migrator
        the test exercises.

    Go strings are byte strings, hence [string]; Go [int] is [Z] with the
    64-bit range written out where a conversion checks it; the attribute
    maps of the provider SDK are [gmap string _]; the hostname set is a
    [gset string]. *)

From Stdlib Require Import ZArith List.
From Stdlib.Strings Require Import String Ascii Byte.
From stdpp Require Import gmap strings list fin_maps.

Local Open Scope string_scope.
Local Open Scope Z_scope.

(** ** The parts of the Go standard library the code calls *)

Module Go.

(** An error value produced by a library (the API client, crypto/x509):
    the code only ever observes its [Error()] text. *)
Record lib_error := errors_New { Error : string }.

(** [fmt.Errorf(format, args...)], kept as the format and its operands. *)
Inductive error := Errorf (format : string) (args : list string).

(** [strings.HasPrefix(s, prefix)] *)
Fixpoint HasPrefix (s prefix : string) : bool :=
  match prefix, s with
  | EmptyString, _ => true
  | String a p', String b s' => if Ascii.eqb a b then HasPrefix s' p' else false
  | String _ _, EmptyString => false
  end.

(** [strings.Contains(s, substr)]: [substr] occurs somewhere in [s]. *)
Fixpoint Contains (s substr : string) : bool :=
  if HasPrefix s substr then true
  else match s with
       | EmptyString => false
       | String _ s' => Contains s' substr
       end.

(** [time.Time] is a struct of three words; [!=] compares them all. *)
Record Time := mkTime { wall : Z; ext : Z; loc : option positive }.

#[global] Instance Time_eq_dec : EqDecision Time.
Proof. solve_decision. Defined.

(** [time.Time{}] *)
Definition Time_zero : Time := mkTime 0 0 None.

Definition RFC3339 : string := "2006-01-02T15:04:05Z07:00".

(** [pem.Block] *)
Record Block := mkBlock {
  Block_Type : string;
  Block_Headers : gmap string string;
  Bytes : list byte
}.

(** The library functions themselves are not part of the repository: PEM
    decoding, PKCS#10 parsing and time formatting are an interface here. *)
Class Stdlib := {
  CertificateRequest : Type;
  (** [pem.Decode(data) (p *Block, rest []byte)]: the first PEM block of
      [data], if any, and what follows it. *)
  pem_Decode : list byte -> option Block * list byte;
  (** [x509.ParseCertificateRequest(asn1Data)] *)
  x509_ParseCertificateRequest : list byte -> lib_error + CertificateRequest;
  (** [t.Format(layout)] *)
  Time_Format : Time -> string -> string
}.

(** [strconv.Atoi]: an optional sign, then one or more decimal digits; the
    value has to fit Go's 64-bit [int]. *)
Definition digit_of (a : ascii) : option Z :=
  let n := Z.of_N (N_of_ascii a) in
  if (48 <=? n) && (n <=? 57) then Some (n - 48) else None.

Fixpoint digits_from (acc : Z) (s : string) : option Z :=
  match s with
  | EmptyString => Some acc
  | String a s' =>
      match digit_of a with
      | Some d => digits_from (10 * acc + d) s'
      | None => None
      end
  end.

Definition unsigned_digits (s : string) : option Z :=
  match s with
  | EmptyString => None
  | _ => digits_from 0 s
  end.

Definition in_int_range (n : Z) : bool :=
  (- 2 ^ 63 <=? n) && (n <? 2 ^ 63).

Definition Atoi (s : string) : option Z :=
  let r :=
    match s with
    | String "+" s' => unsigned_digits s'
    | String "-" s' => Z.opp <$> unsigned_digits s'
    | _ => unsigned_digits s
    end in
  match r with
  | Some n => if in_int_range n then Some n else None
  | None => None
  end.

(** [strconv.ParseBool] *)
Definition ParseBool (s : string) : option bool :=
  if bool_decide (s ∈ ["1"; "t"; "T"; "TRUE"; "true"; "True"]) then Some true
  else if bool_decide (s ∈ ["0"; "f"; "F"; "FALSE"; "false"; "False"]) then Some false
  else None.

(** [crc32.ChecksumIEEE]: the CRC-32 of the IEEE polynomial, bit by bit
    (the library computes the same value from tables). *)
Definition crc32_shift (crc : Z) : Z :=
  if Z.testbit crc 0 then Z.lxor (Z.shiftr crc 1) 3988292384 (* 0xEDB88320 *)
  else Z.shiftr crc 1.

Definition crc32_update (crc : Z) (b : byte) : Z :=
  Nat.iter 8 crc32_shift (Z.lxor crc (Z.of_N (Byte.to_N b))).

Definition ChecksumIEEE (data : list byte) : Z :=
  Z.lxor (fold_left crc32_update data 4294967295) 4294967295.

End Go.

Import Go.

(** ** Origin CA certificate resource *)

Module OriginCA.

(** [cloudflare.OriginCACertificate], as far as the resource reads it. *)
Record OriginCACertificate := mkCert {
  ID : string;
  Certificate : string;
  Hostnames : list string;
  ExpiresOn : Time;
  RequestType : string;
  RequestValidity : Z;
  RevokedAt : Time;
  CSR : string
}.

(** The values the schema of this resource stores: TypeString, TypeInt and
    TypeSet of strings. They are also the dynamic values ([interface{}]) a
    validator receives. *)
Inductive value :=
| VString (s : string)
| VInt (n : Z)
| VSet (s : gset string).

(** [schema.ResourceData]: the resource id and the attributes by key. *)
Record ResourceData := mkData {
  Id : string;
  attrs : gmap string value
}.

(** [d.SetId(v)] *)
Definition SetId (d : ResourceData) (v : string) : ResourceData :=
  {| Id := v; attrs := attrs d |}.

(** [d.Set(key, v)] for a key of the schema. *)
Definition ResourceData_Set (d : ResourceData) (key : string) (v : value) : ResourceData :=
  {| Id := Id d; attrs := <[key := v]> (attrs d) |}.

(** The calls the resource makes on [*cloudflare.API]. *)
Inductive call :=
| CallOriginCertificate (certificateID : string)
| CallRevokeOriginCertificate (certificateID : string).

#[global] Instance call_eq_dec : EqDecision call.
Proof. solve_decision. Defined.

(** The API client: what each call answers. *)
Record API := mkAPI {
  OriginCertificate : string -> lib_error + OriginCACertificate;
  RevokeOriginCertificate : string -> lib_error + OriginCACertificate
}.

(** What a lifecycle function leaves behind: the resource data, the error
    it returns ([None] is Go's [nil]) and the calls it issued, in order. *)
Record outcome := mkOutcome {
  data : ResourceData;
  err : option error;
  calls : list call
}.

(** [schema.HashString], that is [hashcode.String]: the CRC-32 of the
    string as an [int], made non-negative (on 64 bits it always is). *)
Definition HashString (v : string) : Z :=
  let n := ChecksumIEEE (list_byte_of_string v) in
  if 0 <=? n then n else if 0 <=? - n then - n else 0.

(** A [schema.Set] keeps its items in a map keyed by their hash code (the
    code printed in decimal, here the number itself). [Add] stores the item
    unless the map holds an item under its code already. *)
Definition Set_Add (m : gmap Z string) (item : string) : gmap Z string :=
  let code := HashString item in
  match m !! code with
  | Some _ => m
  | None => <[code := item]> m
  end.

(** The items of a set, which are what [d.Set] stores of it. *)
Definition Set_items (m : gmap Z string) : gset string := map_img m.

(** [schema.NewSet(schema.HashString, ...)] followed by [Add] of each
    hostname. *)
Definition hostname_set (hs : list string) : gset string :=
  Set_items (foldl Set_Add ∅ hs).

Definition not_found_message : string := "Failed to read certificate from Database".

Definition resourceCloudflareOriginCACertificateRead `{lib : Stdlib}
    (d : ResourceData) (client : API) : outcome :=
  let certID := Id d in
  let trace := [CallOriginCertificate certID] in
  match OriginCertificate client certID with
  | inl e =>
      if Contains (Error e) not_found_message
      then mkOutcome (SetId d "") None trace
      else mkOutcome d
             (Some (Errorf "Error finding OriginCACertificate %q: %s" [certID; Error e]))
             trace
  | inr cert =>
      if bool_decide (RevokedAt cert ≠ Time_zero)
      then mkOutcome (SetId d "") None trace
      else
        let hostnames := hostname_set (Hostnames cert) in
        let d := ResourceData_Set d "certificate" (VString (Certificate cert)) in
        let d := ResourceData_Set d "expires_on"
                   (VString (Time_Format (ExpiresOn cert) RFC3339)) in
        let d := ResourceData_Set d "hostnames" (VSet hostnames) in
        let d := ResourceData_Set d "request_type" (VString (RequestType cert)) in
        mkOutcome d None trace
  end.

Definition resourceCloudflareOriginCACertificateDelete
    (d : ResourceData) (client : API) : outcome :=
  let certID := Id d in
  let trace := [CallRevokeOriginCertificate certID] in
  match RevokeOriginCertificate client certID with
  | inl e =>
      mkOutcome d
        (Some (Errorf "Error revoking Cloudflare OriginCACertificate: %s" [Error e]))
        trace
  | inr _ => mkOutcome (SetId d "") None trace
  end.

(** [[]byte(s)] *)
Definition bytes_of_string (s : string) : list byte := list_byte_of_string s.

(** [validateCSR(v, k) (ws []string, errors []error)]. The type assertion
    [v.(string)] panics on anything but a string: [None]. *)
Definition validateCSR `{lib : Stdlib} (v : value) (k : string)
    : option (list string * list error) :=
  match v with
  | VString s =>
      let '(block, _) := pem_Decode (bytes_of_string s) in
      match block with
      | None => Some ([], [Errorf "%q: invalid PEM data" [k]])
      | Some b =>
          match x509_ParseCertificateRequest (Bytes b) with
          | inl e => Some ([], [Errorf "%q: %s" [k; Error e]])
          | inr _ => Some ([], [])
          end
      end
  | _ => None
  end.

(** *** A small instance to run the resource on

    A stand-in for the library: a block is a dash, one payload byte and
    whatever follows as the rest; the payload parses when it is the ASN.1
    SEQUENCE tag. *)
Definition sample_lib : Stdlib := {|
  CertificateRequest := list byte;
  pem_Decode := fun data =>
    match data with
    | x2d :: b :: rest => (Some (mkBlock "CERTIFICATE REQUEST" ∅ [b]), rest)
    | _ => (None, data)
    end;
  x509_ParseCertificateRequest := fun der =>
    match der with
    | [x30] => inr der
    | _ => inl (errors_New "asn1: structure error: tags don't match")
    end;
  Time_Format := fun t _ => if bool_decide (t = Time_zero) then "0001-01-01T00:00:00Z"
                            else "2030-06-01T00:00:00Z"
|}.

Definition sample_time : Time := mkTime 0 63000000000 None.

Definition live_cert : OriginCACertificate :=
  mkCert "live" "-----BEGIN CERTIFICATE-----" ["example.com"; "*.example.com"; "example.com"]
         sample_time "origin-rsa" 5475 Time_zero "".

Definition revoked_cert : OriginCACertificate :=
  mkCert "revoked" "-----BEGIN CERTIFICATE-----" ["example.com"]
         sample_time "origin-ecc" 5475 sample_time "".

Definition sample_client : API := {|
  OriginCertificate := fun id =>
    if bool_decide (id = "live") then inr live_cert
    else if bool_decide (id = "revoked") then inr revoked_cert
    else if bool_decide (id = "gone")
    then inl (errors_New "HTTP status 404: Failed to read certificate from Database (1101)")
    else inl (errors_New "HTTP status 500: internal error");
  RevokeOriginCertificate := fun id =>
    if bool_decide (id = "live") then inr revoked_cert
    else inl (errors_New "HTTP status 500: internal error")
|}.

Definition sample_data (id : string) : ResourceData :=
  {| Id := id;
     attrs := list_to_map [("csr", VString "-0"); ("requested_validity", VInt 5475);
                           ("certificate", VString "stale")] |}.

End OriginCA.

(** ** DNS record state migration *)

Module RecordMigrate.

(** [terraform.InstanceState] as the migration test builds it: the id and the
    flat attribute map. *)
Record InstanceState := mkState {
  ID : string;
  Attributes : gmap string string
}.

(** A remote DNS record, as listed by the API ([cloudflare.DNSRecord]); a
    field missing from the JSON is Go's zero value. *)
Record DNSRecord := mkRecord {
  Record_ID : string;
  Type_ : string;
  Name : string;
  Content : string;
  Proxied : bool;
  TTL : Z;
  Priority : Z
}.

(** The calls the migration makes on the API handle. *)
Inductive call :=
| CallZoneIDByName (domain : string)
| CallDNSRecords (zoneID : string).

(** The API handle: the zone lookup ([None]: no zone of that name) and the
    listing of a zone's DNS records. *)
Record API := mkAPI {
  ZoneIDByName : string -> option string;
  DNSRecords : string -> lib_error + list DNSRecord
}.

(** The failures of section 7 of the specification. *)
Inductive migrate_error :=
| ZoneNotFound (domain : string)
| UpstreamError (e : lib_error)
| AmbiguousOrMissingRecord.

(** Legacy state is schema version 0; version 1 is the current schema. *)
Definition current_schema_version : Z := 1.

Definition already_current (v : Z) : bool := current_schema_version <=? v.

(** A long-form identifier has 32 characters or more. *)
Definition long_form_id (id : string) : bool :=
  (32 <=? String.length id)%nat.

(** What is left of a host name once its leftmost label (up to and with the
    first dot) is stripped. *)
Fixpoint strip_leftmost_label (s : string) : string :=
  match s with
  | EmptyString => EmptyString
  | String a s' => if Ascii.eqb a "." then s' else strip_leftmost_label s'
  end.

(** Step 2: the target domain, from the explicit [domain] or [zone_id]
    attribute, else from [hostname] or [name]. *)
Definition derive_domain (a : gmap string string) : string :=
  match a !! "domain" with
  | Some d => d
  | None =>
    match a !! "zone_id" with
    | Some z => z
    | None =>
      match a !! "hostname" with
      | Some h => strip_leftmost_label h
      | None =>
        match a !! "name" with
        | Some n => strip_leftmost_label n
        | None => ""
        end
      end
    end
  end.

(** Step 5: exact match on the name (or hostname) and on the record type. *)
Definition name_type_match (a : gmap string string) (r : DNSRecord) : bool :=
  (bool_decide (a !! "hostname" = Some (Name r)) || bool_decide (a !! "name" = Some (Name r)))
  && bool_decide (a !! "type" = Some (Type_ r)).

(** Step 6: one discriminator. The attribute is compared as its native
    value: an attribute the state does not carry discriminates nothing, and
    one that is no value of the native type equals no record's field. *)
Definition native_eq {A} `{EqDecision A} (parse : string -> option A)
    (attr : option string) (field : A) : bool :=
  match attr with
  | None => true
  | Some s => bool_decide (parse s = Some field)
  end.

Definition ttl_match (a : gmap string string) (r : DNSRecord) : bool :=
  native_eq Atoi (a !! "ttl") (TTL r).

Definition proxied_match (a : gmap string string) (r : DNSRecord) : bool :=
  native_eq ParseBool (a !! "proxied") (Proxied r).

Definition priority_match (a : gmap string string) (r : DNSRecord) : bool :=
  if bool_decide (a !! "type" = Some "MX")
  then native_eq Atoi (a !! "priority") (Priority r)
  else true.

(** Steps 5 and 6: the candidates that remain, discriminators in order. *)
Definition candidates (a : gmap string string) (rs : list DNSRecord) : list DNSRecord :=
  List.filter (priority_match a)
    (List.filter (proxied_match a)
      (List.filter (ttl_match a)
        (List.filter (name_type_match a) rs))).

(** All the tests of steps 5 and 6 on one record. *)
Definition passes (a : gmap string string) (r : DNSRecord) : bool :=
  name_type_match a r && ttl_match a r && proxied_match a r && priority_match a r.

(** Step 7: the state with the record's id adopted. *)
Definition adopt (st : InstanceState) (r : DNSRecord) : InstanceState :=
  {| ID := Record_ID r; Attributes := <["id" := Record_ID r]> (Attributes st) |}.

(** Modelled from the spec: [resourceCloudflareRecordMigrateState], which
    the test calls, is not among the source files; this follows steps 1 to 7
    and the edge case of section 4.1. It answers the new state or a failure,
    and the API calls issued, in order. *)
Definition resourceCloudflareRecordMigrateState
    (v : Z) (st : InstanceState) (meta : API)
    : (migrate_error + InstanceState) * list call :=
  if already_current v then (inr st, [])
  else if long_form_id (ID st) then (inr st, [])
  else
    let domain := derive_domain (Attributes st) in
    match ZoneIDByName meta domain with
    | None => (inl (ZoneNotFound domain), [CallZoneIDByName domain])
    | Some zoneID =>
        let trace := [CallZoneIDByName domain; CallDNSRecords zoneID] in
        match DNSRecords meta zoneID with
        | inl e => (inl (UpstreamError e), trace)
        | inr records =>
            match candidates (Attributes st) records with
            | [r] => (inr (adopt st r), trace)
            | _ => (inl AmbiguousOrMissingRecord, trace)
            end
        end
    end.

(** The state a caller holds after a migration: the new one, or the one it
    had when the migration failed. *)
Definition state_after (st : InstanceState)
    (res : (migrate_error + InstanceState) * list call) : InstanceState :=
  match fst res with
  | inr st1 => st1
  | inl _ => st
  end.

(** *** The fixtures of [TestCloudflareRecordMigrateState] *)

(** [dnsResponse] *)
Definition dnsResponse : list DNSRecord := [
  mkRecord "7778f8766e583af8de0abfcd76c5dAAA" "A" "notthesub.hashicorptest.com"
           "10.0.2.5" false 120 0;
  mkRecord "5558f8766e583af8de0abfcd76c5dBBB" "A" "notthesub.hashicorptest.com"
           "10.0.2.5" false 121 0;
  mkRecord "2220a9593ab869199b65c89bddf72ddd" "A" "maybethesub.hashicorptest.com"
           "10.0.3.5" false 120 0;
  mkRecord "222ffe3f93a31231ad6b0c6d09185jjj" "A" "tftestingsubv616.hashicorptest.com"
           "52.39.212.111" false 1 0;
  mkRecord "888ffe3f93a31231ad6b0c6d09185eee" "A" "tftestingsubv616.hashicorptest.com"
           "52.39.212.111" true 1 0;
  mkRecord "98y6t9ba87e6ee3e6aeba8f3dc52c81b" "CNAME" "somecname.hashicorptest.com"
           "some.us-west-2.elb.amazonaws.com" false 120 0;
  mkRecord "12342092cbc4c391be33ce548713bba3" "MX" "hashicorptest.com"
           "some.registrar-servers.com" false 1 20;
  mkRecord "12345678901234567890123456789012" "" "hashicorptest.com"
           "1.2.3.4" true 122 0
].

(** The client against [mockCloudflareEnv]: the zone route lists the one
    zone, which the client finds under its name only; the record route
    exists for that zone only (400 otherwise). *)
Definition mockAPI : API := {|
  ZoneIDByName := fun name =>
    if bool_decide (name = "hashicorptest.com") then Some "1234567890" else None;
  DNSRecords := fun z =>
    if bool_decide (z = "1234567890") then inr dnsResponse
    else inl (errors_New "HTTP status 400")
|}.

Definition test_state (id : string) (a : list (string * string)) : InstanceState :=
  {| ID := id; Attributes := list_to_map a |}.

Definition case_ttl_120 : InstanceState :=
  test_state "123456"
    [("id", "123456"); ("name", "notthesub"); ("hostname", "notthesub.hashicorptest.com");
     ("type", "A"); ("content", "10.0.2.5"); ("ttl", "120");
     ("zone_id", "1234567890"); ("domain", "hashicorptest.com")].

Definition case_ttl_121 : InstanceState :=
  test_state "123456"
    [("id", "123456"); ("name", "notthesub"); ("hostname", "notthesub.hashicorptest.com");
     ("type", "A"); ("content", "10.0.2.5"); ("ttl", "121");
     ("zone_id", "1234567890"); ("domain", "hashicorptest.com")].

Definition case_mx_priority : InstanceState :=
  test_state "123456"
    [("id", "123456"); ("name", "hashicorptest.com"); ("type", "MX");
     ("content", "some.registrar-servers.com"); ("ttl", "1"); ("priority", "20");
     ("zone_id", "1234567890"); ("domain", "hashicorptest.com")].

Definition case_mx_priority_mismatch : InstanceState :=
  test_state "123456"
    [("id", "123456"); ("type", "MX"); ("name", "hashicorptest.com");
     ("content", "some.registrar-servers.com"); ("ttl", "1"); ("priority", "10");
     ("zone_id", "1234567890"); ("domain", "hashicorptest.com")].

Definition case_proxied : InstanceState :=
  test_state "123456"
    [("id", "123456"); ("name", "tftestingsubv616");
     ("hostname", "tftestingsubv616.hashicorptest.com"); ("type", "A");
     ("content", "52.39.212.111"); ("proxied", "true"); ("ttl", "1");
     ("zone_id", "1234567890"); ("domain", "hashicorptest.com")].

Definition case_not_proxied : InstanceState :=
  test_state "123456"
    [("id", "123456"); ("name", "tftestingsubv616");
     ("hostname", "tftestingsubv616.hashicorptest.com"); ("type", "A");
     ("content", "52.39.212.111"); ("proxied", "false"); ("ttl", "1");
     ("zone_id", "1234567890"); ("domain", "hashicorptest.com")].

Definition case_ttl_122_state_v0_with_v1_fields : InstanceState :=
  test_state "12345678901234567890123456789012"
    [("created_on", "2018-03-07T11:52:02.454564Z"); ("data.%", "0");
     ("hostname", "hashicorptest.com"); ("id", "12345678901234567890123456789012");
     ("metadata.%", "3"); ("metadata.auto_added", "false");
     ("metadata.managed_by_apps", "false"); ("metadata.managed_by_argo_tunnel", "false");
     ("modified_on", "2018-03-07T11:52:02.454564Z"); ("name", "hashicorptest.com");
     ("priority", "0"); ("proxiable", "true"); ("proxied", "true"); ("ttl", "122");
     ("type", "A"); ("value", "1.2.3.4"); ("zone_id", "1234567890")].

(** The [proxied] case with its attributes spelled another way: the same
    integer and the same boolean, other strings. *)
Definition case_proxied_respelled : InstanceState :=
  test_state "123456"
    [("id", "123456"); ("name", "tftestingsubv616");
     ("hostname", "tftestingsubv616.hashicorptest.com"); ("type", "A");
     ("content", "52.39.212.111"); ("proxied", "TRUE"); ("ttl", "+01");
     ("zone_id", "1234567890"); ("domain", "hashicorptest.com")].

(** The words of the specification for "the record has the name, type and
    ttl of the state": its name is the state's hostname or name, its type is
    the state's type, and its ttl is the integer the state's ttl denotes, if
    the state carries one. *)
Definition same_name_type_ttl (a : gmap string string) (r : DNSRecord) : Prop :=
  (a !! "hostname" = Some (Name r) \/ a !! "name" = Some (Name r))
  /\ a !! "type" = Some (Type_ r)
  /\ (forall s, a !! "ttl" = Some s -> Atoi s = Some (TTL r)).

(** And for "the record matches the state": besides, its proxied flag is
    the boolean the state's proxied denotes and, for an MX state, its
    priority the integer the state's priority denotes, as far as the state
    carries them. *)
Definition matches_state (a : gmap string string) (r : DNSRecord) : Prop :=
  same_name_type_ttl a r
  /\ (forall s, a !! "proxied" = Some s -> ParseBool s = Some (Proxied r))
  /\ (a !! "type" = Some "MX" ->
      forall s, a !! "priority" = Some s -> Atoi s = Some (Priority r)).

(** The test [Name r = name], [Type r = type] and [TTL r = ttl], on plain
    values. *)
Definition has_name_type_ttl (name type : string) (ttl : Z) (r : DNSRecord) : bool :=
  bool_decide (Name r = name) && bool_decide (Type_ r = type) && bool_decide (TTL r = ttl).

(** The case [ttl_120] with a [proxied] attribute besides. *)
Definition case_ttl_120_proxied : InstanceState :=
  test_state "123456"
    [("id", "123456"); ("name", "notthesub"); ("hostname", "notthesub.hashicorptest.com");
     ("type", "A"); ("content", "10.0.2.5"); ("ttl", "120"); ("proxied", "true");
     ("zone_id", "1234567890"); ("domain", "hashicorptest.com")].

(** A zone with two mail exchangers of one name and ttl, one proxied and
    one not, both of priority 20. *)
Definition mx_proxied : DNSRecord :=
  mkRecord "aaaa2092cbc4c391be33ce548713bba3" "MX" "hashicorptest.com"
           "one.registrar-servers.com" true 1 20.

Definition mx_unproxied : DNSRecord :=
  mkRecord "bbbb2092cbc4c391be33ce548713bba3" "MX" "hashicorptest.com"
           "two.registrar-servers.com" false 1 20.

Definition mx_pair_API : API := {|
  ZoneIDByName := fun name =>
    if bool_decide (name = "hashicorptest.com") then Some "1234567890" else None;
  DNSRecords := fun _ => inr [mx_proxied; mx_unproxied]
|}.

(** A zone with three address records of one name and ttl, two of them
    proxied. *)
Definition a_proxied : DNSRecord :=
  mkRecord "888ffe3f93a31231ad6b0c6d09185eee" "A" "tftestingsubv616.hashicorptest.com"
           "52.39.212.111" true 1 0.

Definition a_proxied_too : DNSRecord :=
  mkRecord "999ffe3f93a31231ad6b0c6d09185eee" "A" "tftestingsubv616.hashicorptest.com"
           "52.39.212.112" true 1 0.

Definition a_unproxied : DNSRecord :=
  mkRecord "222ffe3f93a31231ad6b0c6d09185jjj" "A" "tftestingsubv616.hashicorptest.com"
           "52.39.212.111" false 1 0.

Definition three_records_API : API := {|
  ZoneIDByName := fun name =>
    if bool_decide (name = "hashicorptest.com") then Some "1234567890" else None;
  DNSRecords := fun _ => inr [a_proxied; a_unproxied; a_proxied_too]
|}.

(** A legacy MX state of that name and ttl, proxied, of priority 10. *)
Definition case_mx_proxied_priority_10 : InstanceState :=
  test_state "123456"
    [("id", "123456"); ("name", "hashicorptest.com"); ("type", "MX");
     ("ttl", "1"); ("proxied", "true"); ("priority", "10");
     ("domain", "hashicorptest.com")].

(** What the test loop observes of one case: the id, or that it failed. *)
Definition migrated_id (v : Z) (st : InstanceState) (meta : API) : option string :=
  match fst (resourceCloudflareRecordMigrateState v st meta) with
  | inr st1 => Some (ID st1)
  | inl _ => None
  end.

End RecordMigrate.

(** ** Origin CA certificate resource: the schema and Create *)

Module OriginCALifecycle.
Import OriginCA.

(** [schema.ValueType], the three the resource uses. *)
Inductive ValueType := TypeString | TypeInt | TypeSet.

#[global] Instance ValueType_eq_dec : EqDecision ValueType.
Proof. solve_decision. Defined.

(** [schema.Schema], the fields the resource fills in. *)
Record Schema := mkSchema {
  Type_ : ValueType;
  Required : bool;
  Optional : bool;
  Computed : bool;
  ForceNew : bool
}.

(** The [Schema] map of [resourceCloudflareOriginCACertificate()]. *)
Definition resourceCloudflareOriginCACertificate : gmap string Schema :=
  list_to_map [
    ("certificate",        mkSchema TypeString false false true  false);
    ("csr",                mkSchema TypeString true  false false true);
    ("expires_on",         mkSchema TypeString false false true  false);
    ("hostnames",          mkSchema TypeSet    true  false false true);
    ("request_type",       mkSchema TypeString true  false false true);
    ("requested_validity", mkSchema TypeInt    false true  false true)
  ].

Definition type_of (v : value) : ValueType :=
  match v with
  | VString _ => TypeString
  | VInt _ => TypeInt
  | VSet _ => TypeSet
  end.

#[global] Instance value_eq_dec : EqDecision value.
Proof. solve_decision. Defined.

(** The zero value of a schema type ([ValueType.Zero]). *)
Definition zero_value (t : ValueType) : value :=
  match t with
  | TypeString => VString ""
  | TypeInt => VInt 0
  | TypeSet => VSet ∅
  end.

(** The items a [schema.Set] can hold: no two of them share a hash code. *)
Definition collision_free (s : gset string) : Prop :=
  forall x y, x ∈ s -> y ∈ s -> HashString x = HashString y -> x = y.

(** Resource data the SDK can hold for this resource: every attribute is
    one of the schema, with a value of the declared type. *)
Definition well_typed (d : ResourceData) : Prop :=
  map_Forall (fun key v =>
    Type_ <$> resourceCloudflareOriginCACertificate !! key = Some (type_of v)) (attrs d).

(** [d.Get(key)]: the attribute, or the zero value of its type when it is
    not set; [None] is the nil interface of a key the schema lacks. *)
Definition Get (d : ResourceData) (key : string) : option value :=
  match attrs d !! key with
  | Some v => Some v
  | None => zero_value ∘ Type_ <$> resourceCloudflareOriginCACertificate !! key
  end.

(** [d.GetOk(key)]: the same value, and whether it was set to something
    other than the zero value. *)
Definition GetOk (d : ResourceData) (key : string) : option value * bool :=
  match attrs d !! key with
  | Some v => (Some v, bool_decide (v ≠ zero_value (type_of v)))
  | None => (zero_value ∘ Type_ <$> resourceCloudflareOriginCACertificate !! key, false)
  end.

(** The type assertions to [string], to [int] and to a [schema.Set]
    pointer; [None] is the panic. *)
Definition assert_string (x : option value) : option string :=
  match x with Some (VString s) => Some s | _ => None end.

Definition assert_int (x : option value) : option Z :=
  match x with Some (VInt n) => Some n | _ => None end.

Definition assert_set (x : option value) : option (gset string) :=
  match x with Some (VSet s) => Some s | _ => None end.

(** The provider SDK keeps to itself the order in which the [List()]
    method of a [schema.Set] enumerates the set. *)
Class SDK := {
  Set_List : gset string -> list string
}.

(** The client with the call Create makes besides. *)
Record Client := mkClient {
  api : API;
  CreateOriginCertificate : OriginCACertificate -> lib_error + OriginCACertificate
}.

Inductive request :=
| RequestCreateOriginCertificate (certificate : OriginCACertificate)
| Request (c : call).

(** What Create leaves behind. *)
Record result := mkResult {
  state : ResourceData;
  failure : option error;
  requests : list request
}.

(** The loop [for _, h := range hostnamesRaw.List() { hostnames = append(hostnames, h.(string)) }] *)
Definition collect_hostnames (l : list string) : list string :=
  foldl (fun hostnames h => (hostnames ++ [h])%list) [] l.

(** [cloudflare.OriginCACertificate{CSR: ..., Hostnames: ..., RequestType: ...}] *)
Definition certInput_of (csr : string) (hostnames : list string) (request_type : string)
    : OriginCACertificate :=
  mkCert "" "" hostnames Time_zero request_type 0 Time_zero csr.

Definition with_RequestValidity (c : OriginCACertificate) (n : Z) : OriginCACertificate :=
  mkCert (ID c) (Certificate c) (Hostnames c) (ExpiresOn c) (RequestType c) n
         (RevokedAt c) (CSR c).

(** [resourceCloudflareOriginCACertificateCreate]; [None] when a type
    assertion panics. *)
Definition resourceCloudflareOriginCACertificateCreate `{lib : Stdlib} `{sdk : SDK}
    (d : ResourceData) (client : Client) : option result :=
  hostnamesRaw ← assert_set (Get d "hostnames");
  let hostnames := collect_hostnames (Set_List hostnamesRaw) in
  csr ← assert_string (Get d "csr");
  request_type ← assert_string (Get d "request_type");
  let certInput := certInput_of csr hostnames request_type in
  let '(requestValidity, ok) := GetOk d "requested_validity" in
  certInput ← (if ok then with_RequestValidity certInput <$> assert_int requestValidity
               else Some certInput);
  let trace := [RequestCreateOriginCertificate certInput] in
  match CreateOriginCertificate client certInput with
  | inl e =>
      Some (mkResult d
              (Some (Errorf "Error creating origin certificate: %s" [Error e])) trace)
  | inr cert =>
      let d := SetId d (ID cert) in
      let d := ResourceData_Set d "certificate" (VString (Certificate cert)) in
      let d := ResourceData_Set d "expires_on"
                 (VString (Time_Format (ExpiresOn cert) RFC3339)) in
      Some (mkResult d None trace)
  end.

(** How a test reads the attributes back. *)
Definition attr_string (d : ResourceData) (key : string) : string :=
  match attrs d !! key with Some (VString s) => s | _ => "" end.

Definition attr_int (d : ResourceData) (key : string) : Z :=
  match attrs d !! key with Some (VInt n) => n | _ => 0 end.

Definition attr_set (d : ResourceData) (key : string) : gset string :=
  match attrs d !! key with Some (VSet s) => s | _ => ∅ end.

(** The certificate request that describes the configuration held in
    [d]. *)
Definition configured_request `{sdk : SDK} (d : ResourceData) : OriginCACertificate :=
  mkCert "" "" (Set_List (attr_set d "hostnames")) Time_zero (attr_string d "request_type")
         (attr_int d "requested_validity") Time_zero (attr_string d "csr").

(** *** A small instance *)

Definition sample_sdk : SDK := {| Set_List := elements |}.

Definition sample_full_client : Client := {|
  api := sample_client;
  CreateOriginCertificate := fun input =>
    if bool_decide (CSR input = "-0") then inr live_cert
    else inl (errors_New "HTTP status 400: invalid CSR")
|}.

Definition reordered_cert : OriginCACertificate :=
  mkCert "live" "-----BEGIN CERTIFICATE-----" ["*.example.com"; "example.com"]
         sample_time "origin-rsa" 5475 Time_zero "".

Definition reordering_client : API :=
  mkAPI (fun _ => inr reordered_cert) (RevokeOriginCertificate sample_client).

Definition wrapping_client : API :=
  mkAPI (fun _ => inl (errors_New
           ("error from makeRequest: " +:+
            "HTTP status 404: Failed to read certificate from Database (1101)" +:+
            " (request id 7)")))
        (RevokeOriginCertificate sample_client).

Definition planned_data (csr : string) : ResourceData :=
  {| Id := "";
     attrs := list_to_map [("csr", VString csr);
                           ("hostnames", VSet {["example.com"; "*.example.com"]});
                           ("request_type", VString "origin-rsa");
                           ("requested_validity", VInt 5475)] |}.

End OriginCALifecycle.

(** ** The migration test and its mock server *)

Module MigrateTest.
Import RecordMigrate.

(** One entry of the table [cases] of [TestCloudflareRecordMigrateState]. *)
Record testcase := mkCase {
  StateVersion : Z;
  case_ID : string;
  case_Attributes : gmap string string;
  Expected : string;
  ShouldFail : bool
}.

(** How the test can end: it runs through, or one of its two [t.Fatalf]
    stops it, or [is.ID] dereferences a nil state. *)
Inductive verdict (E : Type) :=
| Pass
| BadError (tn : string) (err : E)
| BadRecordId (got expected : string)
| NilDereference.

Arguments Pass {E}.
Arguments BadError {E} tn err.
Arguments BadRecordId {E} got expected.
Arguments NilDereference {E}.

Section Loop.

(** The function under test, with the client the test built: it answers a
    state pointer ([None] is nil) and an error ([None] is nil). *)
Context {E : Type}.
Variable migrate : Z -> InstanceState -> option InstanceState * option E.

(** The body of the loop for the case named [tn]: [Pass] is falling through
    to the next case (or [continue]). *)
Definition run_case (tn : string) (tc : testcase) : verdict E :=
  let st := {| ID := case_ID tc; Attributes := case_Attributes tc |} in
  let '(st, err) := migrate (StateVersion tc) st in
  match err with
  | Some e => if ShouldFail tc then Pass else BadError tn e
  | None =>
      match st with
      | None => NilDereference
      | Some st =>
          if bool_decide (ID st ≠ Expected tc)
          then BadRecordId (ID st) (Expected tc)
          else Pass
      end
  end.

(** [for tn, tc := range cases], in the order the runtime picks. *)
Fixpoint run_cases (cases : list (string * testcase)) : verdict E :=
  match cases with
  | [] => Pass
  | (tn, tc) :: rest =>
      match run_case tn tc with
      | Pass => run_cases rest
      | stopped => stopped
      end
  end.

End Loop.

Definition case_of (st : InstanceState) (expected : string) (should_fail : bool) : testcase :=
  mkCase 0 (ID st) (Attributes st) expected should_fail.

(** The table [cases]. *)
Definition cases : gmap string testcase :=
  list_to_map [
    ("ttl_120", case_of case_ttl_120 "7778f8766e583af8de0abfcd76c5dAAA" false);
    ("ttl_121", case_of case_ttl_121 "5558f8766e583af8de0abfcd76c5dBBB" false);
    ("mx_priority", case_of case_mx_priority "12342092cbc4c391be33ce548713bba3" false);
    ("mx_priority_mismatch",
       case_of case_mx_priority_mismatch "12342092cbc4c391be33ce548713bba3" true);
    ("proxied", case_of case_proxied "888ffe3f93a31231ad6b0c6d09185eee" false);
    ("not_proxied", case_of case_not_proxied "222ffe3f93a31231ad6b0c6d09185jjj" false);
    ("ttl_122_state_v0_with_v1_fields",
       case_of case_ttl_122_state_v0_with_v1_fields "12345678901234567890123456789012" false)
  ].

(** *** The mock server *)

Record endpoint := mkEndpoint {
  BasePath : string;
  Body : string
}.

(** [mockEndpoints()], the two fixture texts given. *)
Definition mockEndpoints (zoneResponse dnsResponse : string) : list endpoint :=
  [ mkEndpoint "/zones" zoneResponse;
    mkEndpoint "/zones/1234567890/dns_records" dnsResponse ].

(** [url.URL], the parts of a request URI. *)
Record URL := mkURL {
  Path : string;
  RawQuery : string
}.

(** [url.ParseRequestURI] is the library's. *)
Class NetURL := {
  ParseRequestURI : string -> lib_error + URL
}.

(** [http.ResponseWriter]: the status line goes out once, with the first
    write at the latest; a later [WriteHeader] changes nothing. *)
Record ResponseWriter := mkWriter {
  content_type : string;
  wroteHeader : bool;
  status : Z;
  written : string
}.

Definition WriteHeader (w : ResponseWriter) (code : Z) : ResponseWriter :=
  if wroteHeader w then w
  else mkWriter (content_type w) true code (written w).

Definition Write (w : ResponseWriter) (data : string) : ResponseWriter :=
  let w := WriteHeader w 200 in
  mkWriter (content_type w) (wroteHeader w) (status w) (written w +:+ data).

(** [fmt.Fprintln(w, s)] *)
Definition Fprintln (w : ResponseWriter) (s : string) : ResponseWriter :=
  Write w (s +:+ String (ascii_of_nat 10) "").

Definition Header_Set_Content_Type (w : ResponseWriter) (v : string) : ResponseWriter :=
  mkWriter v (wroteHeader w) (status w) (written w).

(** The loop over the endpoints of the handler. *)
Fixpoint serve (endpoints : list endpoint) (path : string) (w : ResponseWriter)
    : ResponseWriter :=
  match endpoints with
  | [] => WriteHeader w 400
  | e :: rest =>
      if bool_decide (path = BasePath e)
      then WriteHeader (Fprintln w (Body e)) 200
      else serve rest path w
  end.

(** The handler of [mockCloudflareEnv]; [None] when [log.Fatalf] ends the
    process. *)
Definition handler `{url : NetURL} (endpoints : list endpoint) (w : ResponseWriter)
    (RequestURI : string) : option ResponseWriter :=
  let w := Header_Set_Content_Type w "text/plain" in
  match ParseRequestURI RequestURI with
  | inl _ => None
  | inr rBase => Some (serve endpoints (Path rBase) w)
  end.

(** A fresh response. *)
Definition new_response : ResponseWriter := mkWriter "" false 0 "".

(** A stand-in for the URI parser: the path is what precedes the first
    question mark; a URI has to start with a slash. *)
Fixpoint split_query (s : string) : string * string :=
  match s with
  | EmptyString => (EmptyString, EmptyString)
  | String a s' =>
      if Ascii.eqb a "?" then (EmptyString, s')
      else let '(p, q) := split_query s' in (String a p, q)
  end.

Definition sample_url : NetURL := {|
  ParseRequestURI := fun uri =>
    match uri with
    | String "/" _ => let '(p, q) := split_query uri in inr (mkURL p q)
    | _ => inl (errors_New "invalid URI for request")
    end
|}.

(** The migrator of the model behind the test's client, as the loop calls
    it: on failure the state comes back as it was, with the error. *)
Definition model_under_test (v : Z) (st : InstanceState)
    : option InstanceState * option migrate_error :=
  match fst (resourceCloudflareRecordMigrateState v st mockAPI) with
  | inr st1 => (Some st1, None)
  | inl e => (Some st, Some e)
  end.

(** A migrator that never looks at the priority: long ids pass through,
    otherwise name, type, ttl and proxied decide. *)
Definition migrate_without_priority (v : Z) (st : InstanceState)
    : option InstanceState * option migrate_error :=
  if long_form_id (ID st) then (Some st, None)
  else
    match List.filter (proxied_match (Attributes st))
            (List.filter (ttl_match (Attributes st))
               (List.filter (name_type_match (Attributes st)) dnsResponse)) with
    | [r] => (Some (adopt st r), None)
    | _ => (Some st, Some AmbiguousOrMissingRecord)
    end.

End MigrateTest.

(** * Properties *)

(** ** Facts about the library model *)

Module GoFacts.

Lemma HasPrefix_spec (s p : string) :
  HasPrefix s p = true <-> exists post, s = p +:+ post.
Proof.
  revert s. induction p as [|a p IH]; intros s; simpl.
  - split; [intros _; exists s; reflexivity | destruct s; reflexivity].
  - destruct s as [|b s]; simpl.
    + split; [discriminate | intros [post Hp]; discriminate].
    + destruct (Ascii.eqb_spec a b) as [->|Hne].
      * rewrite IH. split; intros [post Hp]; exists post.
        -- now rewrite Hp.
        -- now injection Hp.
      * split; [discriminate | intros [post Hp]; injection Hp; congruence].
Qed.

(** [Contains] decides the occurrence of the substring. *)
Lemma Contains_spec (s sub : string) :
  Contains s sub = true <-> exists pre post, s = pre +:+ sub +:+ post.
Proof.
  induction s as [|a s IH].
  - change (Contains "" sub) with (if HasPrefix "" sub then true else false).
    destruct (HasPrefix "" sub) eqn:Hp.
    + apply HasPrefix_spec in Hp as [post Hp].
      split; [intros _; exists "", post; exact Hp | reflexivity].
    + split; [discriminate|]. intros [pre [post H]].
      destruct pre; [|discriminate]. simpl in H.
      assert (HasPrefix "" sub = true) by (apply HasPrefix_spec; eauto).
      congruence.
  - change (Contains (String a s) sub)
      with (if HasPrefix (String a s) sub then true else Contains s sub).
    destruct (HasPrefix (String a s) sub) eqn:Hp.
    + apply HasPrefix_spec in Hp as [post Hp].
      split; [intros _; exists "", post; exact Hp | reflexivity].
    + rewrite IH. split.
      * intros [pre [post H]]. exists (String a pre), post. simpl. now rewrite H.
      * intros [pre [post H]]. destruct pre as [|b pre]; simpl in H.
        -- assert (HasPrefix (String a s) sub = true) by (apply HasPrefix_spec; eauto).
           congruence.
        -- injection H as _ H. eauto.
Qed.

End GoFacts.

(** ** DNS record state migration *)

Module RecordMigrateFacts.
Import RecordMigrate.

(** The test table of [TestCloudflareRecordMigrateState], case by case. *)
Example test_ttl_120 :
  migrated_id 0 case_ttl_120 mockAPI = Some "7778f8766e583af8de0abfcd76c5dAAA".
Proof. vm_compute. reflexivity. Qed.

Example test_ttl_121 :
  migrated_id 0 case_ttl_121 mockAPI = Some "5558f8766e583af8de0abfcd76c5dBBB".
Proof. vm_compute. reflexivity. Qed.

Example test_mx_priority :
  migrated_id 0 case_mx_priority mockAPI = Some "12342092cbc4c391be33ce548713bba3".
Proof. vm_compute. reflexivity. Qed.

Example test_mx_priority_mismatch :
  migrated_id 0 case_mx_priority_mismatch mockAPI = None.
Proof. vm_compute. reflexivity. Qed.

Example test_proxied :
  migrated_id 0 case_proxied mockAPI = Some "888ffe3f93a31231ad6b0c6d09185eee".
Proof. vm_compute. reflexivity. Qed.

Example test_not_proxied :
  migrated_id 0 case_not_proxied mockAPI = Some "222ffe3f93a31231ad6b0c6d09185jjj".
Proof. vm_compute. reflexivity. Qed.

Example test_ttl_122_state_v0_with_v1_fields :
  migrated_id 0 case_ttl_122_state_v0_with_v1_fields mockAPI
  = Some "12345678901234567890123456789012".
Proof. vm_compute. reflexivity. Qed.

(** The candidates are the listed records that pass every test. *)
Lemma In_candidates (a : gmap string string) (rs : list DNSRecord) (r : DNSRecord) :
  In r (candidates a rs) <->
  In r rs /\ name_type_match a r = true /\ ttl_match a r = true
  /\ proxied_match a r = true /\ priority_match a r = true.
Proof. unfold candidates. rewrite !filter_In. tauto. Qed.

(** No test reads the [id] attribute. *)
Lemma candidates_insert_id (a : gmap string string) (x : string) (rs : list DNSRecord) :
  candidates (<["id" := x]> a) rs = candidates a rs.
Proof.
  unfold candidates.
  assert (L : forall key, key <> "id" -> <["id" := x]> a !! key = a !! key)
    by (intros key Hk; apply lookup_insert_ne; congruence).
  assert (E1 : forall r, name_type_match (<["id" := x]> a) r = name_type_match a r)
    by (intros r; unfold name_type_match; rewrite !L by discriminate; reflexivity).
  assert (E2 : forall r, ttl_match (<["id" := x]> a) r = ttl_match a r)
    by (intros r; unfold ttl_match; rewrite !L by discriminate; reflexivity).
  assert (E3 : forall r, proxied_match (<["id" := x]> a) r = proxied_match a r)
    by (intros r; unfold proxied_match; rewrite !L by discriminate; reflexivity).
  assert (E4 : forall r, priority_match (<["id" := x]> a) r = priority_match a r)
    by (intros r; unfold priority_match; rewrite !L by discriminate; reflexivity).
  rewrite (filter_ext _ _ E4), (filter_ext _ _ E3), (filter_ext _ _ E2), (filter_ext _ _ E1).
  reflexivity.
Qed.

Lemma derive_domain_insert_id (a : gmap string string) (x : string) :
  derive_domain (<["id" := x]> a) = derive_domain a.
Proof.
  unfold derive_domain. rewrite !lookup_insert_ne by discriminate. reflexivity.
Qed.

Lemma adopt_adopt (st : InstanceState) (r : DNSRecord) : adopt (adopt st r) r = adopt st r.
Proof. unfold adopt; simpl. now rewrite insert_insert_eq. Qed.

(** A state the migration has produced migrates to itself. *)
Lemma migrate_again (v : Z) (st st1 : InstanceState) (meta : API) :
  fst (resourceCloudflareRecordMigrateState v st meta) = inr st1 ->
  fst (resourceCloudflareRecordMigrateState v st1 meta) = inr st1.
Proof.
  unfold resourceCloudflareRecordMigrateState.
  destruct (already_current v); [intros [= <-]; reflexivity|].
  destruct (long_form_id (ID st)) eqn:Hl; [intros [= <-]; now rewrite Hl|].
  destruct (ZoneIDByName meta (derive_domain (Attributes st))) as [z|] eqn:Hz;
    [|discriminate].
  destruct (DNSRecords meta z) as [e|rs] eqn:Hr; [discriminate|].
  destruct (candidates (Attributes st) rs) as [|r [|r' l]] eqn:Hc; try discriminate.
  intros [= <-].
  destruct (long_form_id (ID (adopt st r))); [reflexivity|].
  simpl. rewrite derive_domain_insert_id, Hz, Hr, candidates_insert_id, Hc.
  simpl. f_equal. apply adopt_adopt.
Qed.

(** C1. The migration returns the state as it is, and calls nothing, when
    the version is the current schema's and when the id has 32 characters or
    more; and migrating a migrated state changes nothing. *)
Theorem migrate_noop_and_idempotent (v : Z) (st : InstanceState) (meta : API) :
  (1 <= v -> resourceCloudflareRecordMigrateState v st meta = (inr st, []))
  /\ ((32 <= String.length (ID st))%nat ->
      resourceCloudflareRecordMigrateState v st meta = (inr st, []))
  /\ (let once := state_after st (resourceCloudflareRecordMigrateState v st meta) in
      state_after once (resourceCloudflareRecordMigrateState v once meta) = once).
Proof.
  split; [|split].
  - intros Hv. unfold resourceCloudflareRecordMigrateState, already_current,
      current_schema_version.
    now rewrite (proj2 (Z.leb_le 1 v) Hv).
  - intros Hl. unfold resourceCloudflareRecordMigrateState, long_form_id.
    rewrite (proj2 (Nat.leb_le 32 _) Hl). now destruct (already_current v).
  - cbv zeta. unfold state_after.
    destruct (fst (resourceCloudflareRecordMigrateState v st meta)) as [e|st1] eqn:H1.
    + now rewrite H1.
    + now rewrite (migrate_again v st st1 meta H1).
Qed.

Lemma migrate_noop_and_idempotent_witness :
  resourceCloudflareRecordMigrateState 1 case_ttl_120 mockAPI = (inr case_ttl_120, [])
  /\ resourceCloudflareRecordMigrateState 0 case_ttl_122_state_v0_with_v1_fields mockAPI
     = (inr case_ttl_122_state_v0_with_v1_fields, [])
  /\ (let once := state_after case_ttl_120
                    (resourceCloudflareRecordMigrateState 0 case_ttl_120 mockAPI) in
      state_after once (resourceCloudflareRecordMigrateState 0 once mockAPI) = once).
Proof.
  split; [|split].
  - apply (proj1 (migrate_noop_and_idempotent 1 case_ttl_120 mockAPI)). lia.
  - apply (proj1 (proj2 (migrate_noop_and_idempotent 0
                           case_ttl_122_state_v0_with_v1_fields mockAPI))).
    apply Nat.leb_le. reflexivity.
  - exact (proj2 (proj2 (migrate_noop_and_idempotent 0 case_ttl_120 mockAPI))).
Defined.

(** *** The candidates against the words of the specification *)

Lemma native_eq_spec {A} `{EqDecision A} (parse : string -> option A)
    (attr : option string) (field : A) :
  native_eq parse attr field = true <-> forall s, attr = Some s -> parse s = Some field.
Proof.
  unfold native_eq. destruct attr as [s|].
  - rewrite bool_decide_eq_true. split.
    + intros Hp s' [= <-]. exact Hp.
    + intros Hs. now apply Hs.
  - split; [intros _ s; discriminate | reflexivity].
Qed.

Lemma same_name_type_ttl_spec (a : gmap string string) (r : DNSRecord) :
  name_type_match a r && ttl_match a r = true <-> same_name_type_ttl a r.
Proof.
  unfold name_type_match, ttl_match, same_name_type_ttl.
  rewrite !andb_true_iff, orb_true_iff, !bool_decide_eq_true, native_eq_spec.
  split; [intros [[H1 H2] H3] | intros (H1 & H2 & H3)]; repeat split; assumption.
Qed.

Lemma priority_match_spec (a : gmap string string) (r : DNSRecord) :
  priority_match a r = true <->
  (a !! "type" = Some "MX" ->
   forall s, a !! "priority" = Some s -> Atoi s = Some (Priority r)).
Proof.
  unfold priority_match. destruct (bool_decide (a !! "type" = Some "MX")) eqn:Hmx.
  - apply bool_decide_eq_true_1 in Hmx. rewrite native_eq_spec.
    split; [intros Hp _; exact Hp | intros Hp; exact (Hp Hmx)].
  - apply bool_decide_eq_false_1 in Hmx.
    split; [intros _ Hm; contradiction | reflexivity].
Qed.

Lemma passes_spec (a : gmap string string) (r : DNSRecord) :
  passes a r = true <-> matches_state a r.
Proof.
  unfold passes, matches_state.
  rewrite <- same_name_type_ttl_spec, <- priority_match_spec, !andb_true_iff.
  unfold proxied_match. rewrite native_eq_spec.
  split; [intros [[[H1 H2] H3] H4] | intros ([H1 H2] & H3 & H4)];
    repeat split; assumption.
Qed.

Lemma passes_false (a : gmap string string) (r : DNSRecord) :
  ~ matches_state a r -> passes a r = false.
Proof.
  intros Hn. destruct (passes a r) eqn:Hp; [|reflexivity].
  now apply passes_spec in Hp.
Qed.

Lemma filter_filter_andb {A} (f g : A -> bool) (l : list A) :
  List.filter g (List.filter f l) = List.filter (fun x => f x && g x) l.
Proof.
  induction l as [|x l IH]; simpl; [reflexivity|].
  destruct (f x); simpl; [destruct (g x); now rewrite IH | exact IH].
Qed.

(** The discriminators are tests of the single record: their order does
    not show in the candidates. *)
Lemma candidates_passes (a : gmap string string) (rs : list DNSRecord) :
  candidates a rs = List.filter (passes a) rs.
Proof.
  unfold candidates, passes. rewrite !filter_filter_andb.
  apply filter_ext. intros r.
  destruct (name_type_match a r), (ttl_match a r), (proxied_match a r),
    (priority_match a r); reflexivity.
Qed.

Lemma filter_none {A} (f : A -> bool) (l : list A) :
  (forall x, In x l -> f x = false) -> List.filter f l = [].
Proof.
  induction l as [|x l IH]; intros Hf; simpl; [reflexivity|].
  rewrite (Hf x) by now left. apply IH. intros y Hy. apply Hf. now right.
Qed.

Lemma filter_Permutation {A} (f : A -> bool) (l l' : list A) :
  l ≡ₚ l' -> List.filter f l ≡ₚ List.filter f l'.
Proof.
  induction 1 as [|x l l' _ IH|x y l|l1 l2 l3 _ IH1 _ IH2]; simpl.
  - reflexivity.
  - destruct (f x); [now constructor | exact IH].
  - destruct (f x), (f y); try reflexivity. apply perm_swap.
  - now transitivity (List.filter f l2).
Qed.

Lemma Permutation_pick_two {A} (l1 l2 : list A) (u p : A) :
  (l1 ++ u :: p :: l2)%list ≡ₚ p :: u :: (l1 ++ l2)%list.
Proof.
  rewrite <- Permutation_middle, <- Permutation_middle. apply perm_swap.
Qed.

(** One listed record matches and no other does: it is the one candidate. *)
Lemma candidates_unique (a : gmap string string) (pre post : list DNSRecord) (r : DNSRecord) :
  matches_state a r ->
  (forall x, In x (pre ++ post)%list -> ~ matches_state a x) ->
  candidates a (pre ++ r :: post)%list = [r].
Proof.
  intros Hr Hno. rewrite candidates_passes, List.filter_app. simpl.
  rewrite (proj2 (passes_spec a r) Hr).
  rewrite (filter_none (passes a) pre), (filter_none (passes a) post); [reflexivity| |].
  - intros x Hx. apply passes_false, Hno, in_or_app. now right.
  - intros x Hx. apply passes_false, Hno, in_or_app. now left.
Qed.

(** Two listed records match: there are two candidates at least. *)
Lemma candidates_several (a : gmap string string) (pre mid post : list DNSRecord)
    (r1 r2 : DNSRecord) :
  matches_state a r1 -> matches_state a r2 ->
  exists x y l, candidates a (pre ++ r1 :: mid ++ r2 :: post)%list = x :: y :: l.
Proof.
  intros H1 H2. rewrite candidates_passes, List.filter_app. simpl.
  rewrite (proj2 (passes_spec a r1) H1), List.filter_app. simpl.
  rewrite (proj2 (passes_spec a r2) H2).
  destruct (List.filter (passes a) pre) as [|x [|y l]]; simpl.
  - destruct (List.filter (passes a) mid) as [|y l]; simpl; eauto.
  - eauto.
  - eauto.
Qed.

(** C2 (as amended). For a legacy state whose zone resolves and whose
    records are listed: when exactly one listed record matches the state on
    name (or hostname), type, ttl, proxied and, for MX, priority, the
    migration answers the state with that record's id; when none matches,
    or two listed records do, it fails as ambiguous or missing. *)
Theorem migrate_adopts_unique_match
    (v : Z) (st : InstanceState) (meta : API) (zoneID : string) (records : list DNSRecord) :
  v < 1 ->
  (String.length (ID st) < 32)%nat ->
  ZoneIDByName meta (derive_domain (Attributes st)) = Some zoneID ->
  DNSRecords meta zoneID = inr records ->
  (forall pre r post,
     records = (pre ++ r :: post)%list ->
     matches_state (Attributes st) r ->
     (forall x, In x (pre ++ post)%list -> ~ matches_state (Attributes st) x) ->
     exists st1, fst (resourceCloudflareRecordMigrateState v st meta) = inr st1
       /\ ID st1 = Record_ID r
       /\ Attributes st1 !! "id" = Some (Record_ID r)
       /\ forall key, key <> "id" -> Attributes st1 !! key = Attributes st !! key)
  /\ ((forall x, In x records -> ~ matches_state (Attributes st) x) ->
      fst (resourceCloudflareRecordMigrateState v st meta) = inl AmbiguousOrMissingRecord)
  /\ (forall pre r1 mid r2 post,
        records = (pre ++ r1 :: mid ++ r2 :: post)%list ->
        matches_state (Attributes st) r1 -> matches_state (Attributes st) r2 ->
        fst (resourceCloudflareRecordMigrateState v st meta) = inl AmbiguousOrMissingRecord).
Proof.
  intros Hv Hl Hz Hr.
  unfold resourceCloudflareRecordMigrateState, already_current, current_schema_version,
    long_form_id.
  rewrite (proj2 (Z.leb_gt 1 v) Hv), (proj2 (Nat.leb_gt 32 _) Hl), Hz, Hr.
  split; [|split].
  - intros pre r post -> Hm Hno. rewrite (candidates_unique _ pre post r Hm Hno).
    exists (adopt st r). simpl. repeat split.
    + apply lookup_insert_eq.
    + intros key Hk. apply lookup_insert_ne. congruence.
  - intros Hno. rewrite candidates_passes, filter_none; [reflexivity|].
    intros x Hx. now apply passes_false, Hno.
  - intros pre r1 mid r2 post -> H1 H2.
    destruct (candidates_several (Attributes st) pre mid post r1 r2 H1 H2)
      as (x & y & l & ->).
    reflexivity.
Qed.

Lemma migrate_adopts_unique_match_witness :
  (exists st1, fst (resourceCloudflareRecordMigrateState 0 case_ttl_120 mockAPI) = inr st1
               /\ ID st1 = "7778f8766e583af8de0abfcd76c5dAAA")
  /\ fst (resourceCloudflareRecordMigrateState 0 case_proxied three_records_API)
     = inl AmbiguousOrMissingRecord.
Proof.
  split.
  - destruct (migrate_adopts_unique_match 0 case_ttl_120 mockAPI "1234567890" dnsResponse)
      as [Hone _]; [lia | apply Nat.ltb_lt; reflexivity | reflexivity | reflexivity |].
    destruct (Hone [] (mkRecord "7778f8766e583af8de0abfcd76c5dAAA" "A"
                         "notthesub.hashicorptest.com" "10.0.2.5" false 120 0)
                (tl dnsResponse) eq_refl)
      as [st1 [H1 [H2 _]]].
    + apply passes_spec. vm_compute. reflexivity.
    + intros x Hx Hm. apply passes_spec in Hm. simpl in Hx.
      repeat (destruct Hx as [<- | Hx]; [vm_compute in Hm; discriminate Hm|]).
      contradiction.
    + exists st1. split; [exact H1 | exact H2].
  - destruct (migrate_adopts_unique_match 0 case_proxied three_records_API
                "1234567890" [a_proxied; a_unproxied; a_proxied_too])
      as [_ [_ Htwo]]; [lia | apply Nat.ltb_lt; reflexivity | reflexivity | reflexivity |].
    apply (Htwo [] a_proxied [a_unproxied] a_proxied_too [] eq_refl);
      apply passes_spec; vm_compute; reflexivity.
Defined.

(** C2, counterexample with name, type and ttl as the only discriminators:
    the state [ttl_120] with a proxied attribute has, in the test's zone,
    exactly one record of its name, type and ttl, and still does not
    migrate, for that record is not proxied. *)
Lemma migrate_one_name_type_ttl_match_fails :
  Attributes case_ttl_120_proxied !! "hostname" = Some "notthesub.hashicorptest.com"
  /\ Attributes case_ttl_120_proxied !! "type" = Some "A"
  /\ Attributes case_ttl_120_proxied !! "ttl" = Some "120"
  /\ List.filter (has_name_type_ttl "notthesub.hashicorptest.com" "A" 120) dnsResponse
     = [mkRecord "7778f8766e583af8de0abfcd76c5dAAA" "A" "notthesub.hashicorptest.com"
          "10.0.2.5" false 120 0]
  /\ fst (resourceCloudflareRecordMigrateState 0 case_ttl_120_proxied mockAPI)
     = inl AmbiguousOrMissingRecord.
Proof. repeat split; vm_compute; reflexivity. Qed.

(** C3 (as amended). When two listed records have the name, type and ttl of
    a legacy state, no other listed record has, and the two differ in
    proxied, the migration adopts the one whose proxied flag is the boolean
    the state's proxied attribute denotes, provided that for an MX state its
    priority is the integer the state's priority denotes; the ttl and the
    priority are compared as integers and proxied as a boolean, whatever the
    order of the listing. *)
Theorem migrate_selects_proxied_match
    (v : Z) (st : InstanceState) (meta : API) (zoneID : string)
    (records others : list DNSRecord) (r1 r2 : DNSRecord) (s : string) :
  v < 1 ->
  (String.length (ID st) < 32)%nat ->
  ZoneIDByName meta (derive_domain (Attributes st)) = Some zoneID ->
  DNSRecords meta zoneID = inr records ->
  records ≡ₚ r1 :: r2 :: others ->
  same_name_type_ttl (Attributes st) r1 ->
  same_name_type_ttl (Attributes st) r2 ->
  (forall x, In x others -> ~ same_name_type_ttl (Attributes st) x) ->
  Proxied r1 <> Proxied r2 ->
  Attributes st !! "proxied" = Some s ->
  ParseBool s = Some (Proxied r1) ->
  (Attributes st !! "type" = Some "MX" ->
   forall p, Attributes st !! "priority" = Some p -> Atoi p = Some (Priority r1)) ->
  exists st1, fst (resourceCloudflareRecordMigrateState v st meta) = inr st1
    /\ ID st1 = Record_ID r1
    /\ Attributes st1 !! "id" = Some (Record_ID r1)
    /\ forall key, key <> "id" -> Attributes st1 !! key = Attributes st !! key.
Proof.
  intros Hv Hl Hz Hr Hperm Hs1 Hs2 Hothers Hdiff Hattr Hparse Hprio.
  assert (M1 : passes (Attributes st) r1 = true).
  { apply passes_spec. split; [exact Hs1|]. split; [|exact Hprio].
    intros s' Hs'. rewrite Hattr in Hs'. injection Hs' as <-. exact Hparse. }
  assert (M2 : passes (Attributes st) r2 = false).
  { apply passes_false. intros (_ & Hp & _). specialize (Hp s Hattr).
    rewrite Hparse in Hp. injection Hp as Hp. exact (Hdiff Hp). }
  assert (Mo : List.filter (passes (Attributes st)) others = []).
  { apply filter_none. intros x Hx. apply passes_false. intros [Hx' _].
    exact (Hothers x Hx Hx'). }
  assert (Hc : candidates (Attributes st) records = [r1]).
  { apply Permutation_singleton_r. rewrite candidates_passes.
    rewrite (filter_Permutation _ _ _ Hperm). simpl. now rewrite M1, M2, Mo. }
  unfold resourceCloudflareRecordMigrateState, already_current, current_schema_version,
    long_form_id.
  rewrite (proj2 (Z.leb_gt 1 v) Hv), (proj2 (Nat.leb_gt 32 _) Hl), Hz, Hr, Hc.
  exists (adopt st r1). simpl. repeat split.
  - apply lookup_insert_eq.
  - intros key Hk. apply lookup_insert_ne. congruence.
Qed.

Lemma migrate_selects_proxied_match_witness :
  exists st1,
    fst (resourceCloudflareRecordMigrateState 0 case_proxied_respelled mockAPI) = inr st1
    /\ ID st1 = "888ffe3f93a31231ad6b0c6d09185eee".
Proof.
  destruct (migrate_selects_proxied_match 0 case_proxied_respelled mockAPI "1234567890"
              dnsResponse (take 3 dnsResponse ++ drop 5 dnsResponse)%list
              a_proxied a_unproxied "TRUE") as (st1 & H1 & H2 & _).
  - lia.
  - apply Nat.ltb_lt. reflexivity.
  - reflexivity.
  - reflexivity.
  - exact (Permutation_pick_two (take 3 dnsResponse) (drop 5 dnsResponse)
             a_unproxied a_proxied).
  - apply same_name_type_ttl_spec. vm_compute. reflexivity.
  - apply same_name_type_ttl_spec. vm_compute. reflexivity.
  - intros x Hx Hm. apply same_name_type_ttl_spec in Hm. vm_compute in Hx.
    repeat (destruct Hx as [<- | Hx]; [vm_compute in Hm; discriminate Hm|]).
    contradiction.
  - simpl. discriminate.
  - vm_compute. reflexivity.
  - vm_compute. reflexivity.
  - intros Hmx. vm_compute in Hmx. discriminate Hmx.
  - exists st1. split; [exact H1 | exact H2].
Defined.

(** C3, counterexamples without the provisos: two mail exchangers of the
    name, type and ttl of an MX state differ in proxied, and the state does
    not migrate to the proxied one, its priority being another; and of three
    address records of the name, type and ttl of a state two are proxied as
    the state is, so that none is selected. *)
Lemma migrate_proxied_pair_not_selected :
  (has_name_type_ttl "hashicorptest.com" "MX" 1 mx_proxied = true
   /\ has_name_type_ttl "hashicorptest.com" "MX" 1 mx_unproxied = true
   /\ Attributes case_mx_proxied_priority_10 !! "name" = Some "hashicorptest.com"
   /\ Attributes case_mx_proxied_priority_10 !! "type" = Some "MX"
   /\ Attributes case_mx_proxied_priority_10 !! "ttl" = Some "1"
   /\ Attributes case_mx_proxied_priority_10 !! "proxied" = Some "true"
   /\ Proxied mx_proxied = true /\ Proxied mx_unproxied = false
   /\ fst (resourceCloudflareRecordMigrateState 0 case_mx_proxied_priority_10 mx_pair_API)
      = inl AmbiguousOrMissingRecord)
  /\ (has_name_type_ttl "tftestingsubv616.hashicorptest.com" "A" 1 a_proxied = true
      /\ has_name_type_ttl "tftestingsubv616.hashicorptest.com" "A" 1 a_unproxied = true
      /\ Attributes case_proxied !! "hostname" = Some "tftestingsubv616.hashicorptest.com"
      /\ Attributes case_proxied !! "type" = Some "A"
      /\ Attributes case_proxied !! "ttl" = Some "1"
      /\ Attributes case_proxied !! "proxied" = Some "true"
      /\ Proxied a_proxied = true /\ Proxied a_unproxied = false
      /\ fst (resourceCloudflareRecordMigrateState 0 case_proxied three_records_API)
         = inl AmbiguousOrMissingRecord).
Proof. repeat split; vm_compute; reflexivity. Qed.

(** C4. A legacy MX state whose priority is the priority of no listed
    record of its name and type does not migrate: the migration fails, and
    once the zone resolved and the records were listed the failure is the
    ambiguous-or-missing one, whatever the ttl. *)
Theorem migrate_mx_priority_mismatch
    (v : Z) (st : InstanceState) (meta : API) (p : string) :
  v < 1 ->
  (String.length (ID st) < 32)%nat ->
  Attributes st !! "type" = Some "MX" ->
  Attributes st !! "priority" = Some p ->
  (forall zoneID records r,
      DNSRecords meta zoneID = inr records ->
      In r records -> name_type_match (Attributes st) r = true ->
      Atoi p <> Some (Priority r)) ->
  (exists e, fst (resourceCloudflareRecordMigrateState v st meta) = inl e)
  /\ (forall zoneID records,
        ZoneIDByName meta (derive_domain (Attributes st)) = Some zoneID ->
        DNSRecords meta zoneID = inr records ->
        fst (resourceCloudflareRecordMigrateState v st meta) = inl AmbiguousOrMissingRecord).
Proof.
  intros Hv Hl Hty Hp Hno.
  assert (Hnone : forall zoneID records,
             DNSRecords meta zoneID = inr records ->
             candidates (Attributes st) records = []).
  { intros zoneID records Hr.
    destruct (candidates (Attributes st) records) as [|r l] eqn:Hc; [reflexivity|].
    exfalso.
    assert (Hin : In r (candidates (Attributes st) records)) by (rewrite Hc; now left).
    apply In_candidates in Hin as (Hin & Hnt & _ & _ & Hprio).
    unfold priority_match, native_eq in Hprio.
    rewrite Hty, Hp, bool_decide_eq_true_2 in Hprio by reflexivity.
    apply bool_decide_eq_true_1 in Hprio.
    exact (Hno zoneID records r Hr Hin Hnt Hprio). }
  unfold resourceCloudflareRecordMigrateState, already_current, current_schema_version,
    long_form_id.
  rewrite (proj2 (Z.leb_gt 1 v) Hv), (proj2 (Nat.leb_gt 32 _) Hl).
  split.
  - destruct (ZoneIDByName meta (derive_domain (Attributes st))) as [z|]; [|simpl; eauto].
    destruct (DNSRecords meta z) as [e|rs] eqn:Hr; [simpl; eauto|].
    rewrite (Hnone z rs Hr). simpl; eauto.
  - intros zoneID records -> Hr. now rewrite Hr, (Hnone zoneID records Hr).
Qed.

Lemma migrate_mx_priority_mismatch_witness :
  ttl_match (Attributes case_mx_priority_mismatch)
    (mkRecord "12342092cbc4c391be33ce548713bba3" "MX" "hashicorptest.com"
       "some.registrar-servers.com" false 1 20) = true
  /\ fst (resourceCloudflareRecordMigrateState 0 case_mx_priority_mismatch mockAPI)
     = inl AmbiguousOrMissingRecord.
Proof.
  split; [vm_compute; reflexivity|].
  destruct (migrate_mx_priority_mismatch 0 case_mx_priority_mismatch mockAPI "10")
    as [_ Hfail].
  - lia.
  - apply Nat.ltb_lt. reflexivity.
  - vm_compute. reflexivity.
  - vm_compute. reflexivity.
  - intros zoneID records r Hr Hin Hnt.
    unfold mockAPI in Hr; simpl in Hr.
    destruct (bool_decide (zoneID = "1234567890")); [|discriminate].
    injection Hr as <-.
    unfold dnsResponse in Hin; simpl in Hin.
    repeat (destruct Hin as [<- | Hin]; [vm_compute in Hnt; try discriminate Hnt|]);
      try contradiction.
    vm_compute. discriminate.
  - apply (Hfail "1234567890" dnsResponse); reflexivity.
Defined.

End RecordMigrateFacts.

(** ** Origin CA certificate resource *)

Module OriginCAFacts.
Import OriginCA GoFacts.

(** [Add] never replaces an item. *)
Lemma Set_Add_keeps (m : gmap Z string) (x : string) (c : Z) (h : string) :
  m !! c = Some h -> Set_Add m x !! c = Some h.
Proof.
  intros Hm. unfold Set_Add.
  destruct (m !! HashString x) eqn:Hx; [exact Hm|].
  rewrite lookup_insert_ne; [exact Hm | congruence].
Qed.

Lemma Set_Add_origin (m : gmap Z string) (x : string) (c : Z) (h : string) :
  Set_Add m x !! c = Some h ->
  m !! c = Some h \/ (h = x /\ c = HashString x).
Proof.
  unfold Set_Add. destruct (m !! HashString x) eqn:Hx; [now left|].
  destruct (decide (HashString x = c)) as [<-|Hne].
  - rewrite lookup_insert_eq. intros [= <-]. now right.
  - rewrite lookup_insert_ne by exact Hne. now left.
Qed.

Lemma Set_Add_holds (m : gmap Z string) (x : string) :
  is_Some (Set_Add m x !! HashString x).
Proof.
  unfold Set_Add. destruct (m !! HashString x) eqn:Hx.
  - rewrite Hx. eauto.
  - rewrite lookup_insert_eq. eauto.
Qed.

Lemma foldl_Set_Add_keeps (l : list string) (m : gmap Z string) (c : Z) (h : string) :
  m !! c = Some h -> foldl Set_Add m l !! c = Some h.
Proof.
  revert m. induction l as [|x l IH]; intros m Hm; simpl; [exact Hm|].
  apply IH, Set_Add_keeps, Hm.
Qed.

Lemma foldl_Set_Add_origin (l : list string) (m : gmap Z string) (c : Z) (h : string) :
  foldl Set_Add m l !! c = Some h ->
  m !! c = Some h \/ (h ∈ l /\ HashString h = c).
Proof.
  revert m. induction l as [|x l IH]; intros m; simpl; [now left|].
  intros Hf. destruct (IH _ Hf) as [Hm | [Hin Hc]].
  - destruct (Set_Add_origin _ _ _ _ Hm) as [Hm' | [-> ->]]; [now left|].
    right. split; [left | reflexivity].
  - right. split; [now right | exact Hc].
Qed.

Lemma foldl_Set_Add_holds (l : list string) (m : gmap Z string) (h : string) :
  h ∈ l -> is_Some (foldl Set_Add m l !! HashString h).
Proof.
  revert m. induction l as [|x l IH]; intros m Hin.
  - now apply elem_of_nil in Hin.
  - simpl. apply elem_of_cons in Hin as [-> | Hin]; [|now apply IH].
    destruct (Set_Add_holds m x) as [y Hy].
    rewrite (foldl_Set_Add_keeps l _ _ _ Hy). eauto.
Qed.

(** The first item of a code is the one the set holds. *)
Lemma foldl_Set_Add_first (pre post : list string) (h : string) :
  (forall x, x ∈ pre -> HashString x <> HashString h) ->
  foldl Set_Add ∅ (pre ++ h :: post)%list !! HashString h = Some h.
Proof.
  intros Hpre. rewrite foldl_app. simpl.
  apply foldl_Set_Add_keeps.
  destruct (foldl Set_Add ∅ pre !! HashString h) as [y|] eqn:Hy.
  - exfalso. destruct (foldl_Set_Add_origin _ _ _ _ Hy) as [He | [Hin Hc]].
    + now rewrite lookup_empty in He.
    + exact (Hpre y Hin Hc).
  - unfold Set_Add at 1. rewrite Hy. apply lookup_insert_eq.
Qed.

Lemma hostname_set_lookup (hs : list string) (h : string) :
  h ∈ hostname_set hs <-> foldl Set_Add ∅ hs !! HashString h = Some h.
Proof.
  unfold hostname_set, Set_items. rewrite elem_of_map_img. split.
  - intros [c Hc]. destruct (foldl_Set_Add_origin _ _ _ _ Hc) as [He | [_ <-]].
    + now rewrite lookup_empty in He.
    + exact Hc.
  - eauto.
Qed.

Lemma first_of_code (l : list string) (h : string) :
  h ∈ l ->
  exists pre y post, l = (pre ++ y :: post)%list /\ HashString y = HashString h
                     /\ forall x, x ∈ pre -> HashString x <> HashString h.
Proof.
  induction l as [|x l IH]; intros Hin.
  - now apply elem_of_nil in Hin.
  - destruct (decide (HashString x = HashString h)) as [He|Hne].
    + exists [], x, l. repeat split; [exact He|].
      intros y Hy. now apply elem_of_nil in Hy.
    + apply elem_of_cons in Hin as [-> | Hin]; [congruence|].
      destruct (IH Hin) as (pre & y & post & -> & Hy & Hpre).
      exists (x :: pre), y, post. repeat split; [exact Hy|].
      intros z Hz. apply elem_of_cons in Hz as [-> | Hz]; [exact Hne | now apply Hpre].
Qed.

(** The set built from a list of hostnames holds, of the hostnames of one
    hash code, the first of the list. *)
Lemma elem_of_hostname_set (hs : list string) (h : string) :
  h ∈ hostname_set hs <->
  exists pre post, hs = (pre ++ h :: post)%list
                   /\ forall x, x ∈ pre -> HashString x <> HashString h.
Proof.
  rewrite hostname_set_lookup. split.
  - intros Hl.
    assert (Hin : h ∈ hs).
    { destruct (foldl_Set_Add_origin _ _ _ _ Hl) as [He | [Hin _]]; [|exact Hin].
      now rewrite lookup_empty in He. }
    destruct (first_of_code hs h Hin) as (pre & y & post & -> & Hy & Hpre).
    assert (Hf : foldl Set_Add ∅ (pre ++ y :: post)%list !! HashString y = Some y).
    { apply foldl_Set_Add_first. intros x Hx. rewrite Hy. now apply Hpre. }
    rewrite Hy, Hl in Hf. injection Hf as ->.
    exists pre, post. split; [reflexivity | exact Hpre].
  - intros (pre & post & -> & Hpre). now apply foldl_Set_Add_first.
Qed.

(** Without two hostnames of one hash code in the list, the set holds the
    hostnames of the list. *)
Lemma elem_of_hostname_set_distinct_codes (hs : list string) (h : string) :
  (forall x y, x ∈ hs -> y ∈ hs -> HashString x = HashString y -> x = y) ->
  h ∈ hostname_set hs <-> h ∈ hs.
Proof.
  intros Hd. split.
  - rewrite elem_of_hostname_set. intros (pre & post & -> & _).
    apply elem_of_app. right. left.
  - intros Hin. apply hostname_set_lookup.
    destruct (foldl_Set_Add_holds hs ∅ h Hin) as [y Hy].
    destruct (foldl_Set_Add_origin _ _ _ _ Hy) as [He | [Hy_in Hc]].
    + now rewrite lookup_empty in He.
    + pose proof (Hd y h Hy_in Hin Hc) as ->. exact Hy.
Qed.

Lemma hostname_set_codes_distinct (hs : list string) (x y : string) :
  x ∈ hostname_set hs -> y ∈ hostname_set hs -> HashString x = HashString y -> x = y.
Proof.
  rewrite !hostname_set_lookup. intros Hx Hy He. rewrite He, Hy in Hx. congruence.
Qed.

Section WithStdlib.
Context `{lib : Stdlib}.

(** C5. [validateCSR] answers one error when the input holds no PEM block,
    one error when the payload of its block does not parse as a certificate
    signing request, and no error when it does. *)
Theorem validateCSR_rejects_and_accepts (s k : string) :
  (fst (pem_Decode (bytes_of_string s)) = None ->
     exists errs, validateCSR (VString s) k = Some ([], errs)
                  /\ errs = [Errorf "%q: invalid PEM data" [k]] /\ errs <> [])
  /\ (forall b e, fst (pem_Decode (bytes_of_string s)) = Some b ->
        x509_ParseCertificateRequest (Bytes b) = inl e ->
        exists errs, validateCSR (VString s) k = Some ([], errs)
                     /\ errs = [Errorf "%q: %s" [k; Error e]] /\ errs <> [])
  /\ (forall b csr, fst (pem_Decode (bytes_of_string s)) = Some b ->
        x509_ParseCertificateRequest (Bytes b) = inr csr ->
        validateCSR (VString s) k = Some ([], [])).
Proof.
  unfold validateCSR.
  destruct (pem_Decode (bytes_of_string s)) as [block rest]; simpl.
  repeat split.
  - intros ->. eexists; repeat split; discriminate.
  - intros b e -> ->. eexists; repeat split; discriminate.
  - intros b csr -> ->. reflexivity.
Qed.

(** C10. [validateCSR] looks at the first PEM block only: what follows the
    block never matters, two inputs with the same first block are judged
    alike, and the list of warnings is always empty. *)
Theorem validateCSR_first_block_only (k : string) :
  (forall s b rest csr,
      pem_Decode (bytes_of_string s) = (Some b, rest) ->
      x509_ParseCertificateRequest (Bytes b) = inr csr ->
      validateCSR (VString s) k = Some ([], []))
  /\ (forall s1 s2,
        fst (pem_Decode (bytes_of_string s1)) = fst (pem_Decode (bytes_of_string s2)) ->
        validateCSR (VString s1) k = validateCSR (VString s2) k)
  /\ (forall s, exists errs, validateCSR (VString s) k = Some ([], errs))
  /\ (forall v ws errs, validateCSR v k = Some (ws, errs) -> ws = []).
Proof.
  unfold validateCSR. repeat split.
  - intros s b rest csr -> ->. reflexivity.
  - intros s1 s2.
    destruct (pem_Decode (bytes_of_string s1)) as [b1 r1],
             (pem_Decode (bytes_of_string s2)) as [b2 r2]; simpl.
    intros ->. reflexivity.
  - intros s. destruct (pem_Decode (bytes_of_string s)) as [[b|] r].
    + destruct (x509_ParseCertificateRequest (Bytes b)); eauto.
    + eauto.
  - intros [s| |] ws errs; try discriminate.
    destruct (pem_Decode (bytes_of_string s)) as [[b|] r].
    + destruct (x509_ParseCertificateRequest (Bytes b)); congruence.
    + congruence.
Qed.

(** C6. When the lookup fails and the error text contains
    "Failed to read certificate from Database", Read clears the id and
    returns nil; on any other lookup error it returns the error wrapped, and
    leaves the resource data alone. *)
Theorem read_lookup_error (d : ResourceData) (client : API) (e : lib_error) :
  OriginCertificate client (Id d) = inl e ->
  ((exists pre post, Error e = pre +:+ "Failed to read certificate from Database" +:+ post) ->
     let out := resourceCloudflareOriginCACertificateRead d client in
     Id (data out) = "" /\ attrs (data out) = attrs d /\ err out = None)
  /\ (~ (exists pre post, Error e = pre +:+ "Failed to read certificate from Database" +:+ post) ->
     let out := resourceCloudflareOriginCACertificateRead d client in
     data out = d
     /\ err out = Some (Errorf "Error finding OriginCACertificate %q: %s" [Id d; Error e])).
Proof.
  intros Hl. unfold resourceCloudflareOriginCACertificateRead. rewrite Hl.
  split; intros Hc.
  - apply (Contains_spec (Error e) not_found_message) in Hc. rewrite Hc. simpl. auto.
  - destruct (Contains (Error e) not_found_message) eqn:Hn.
    + exfalso. apply Hc. now apply (Contains_spec (Error e) not_found_message).
    + simpl. auto.
Qed.


(** C9. Read is framed: an attribute other than certificate, expires_on,
    hostnames and request_type keeps its value in every branch; so do csr
    and requested_validity. *)
Theorem read_frame (d : ResourceData) (client : API) :
  let out := resourceCloudflareOriginCACertificateRead d client in
  (forall key, key ∉ ["certificate"; "expires_on"; "hostnames"; "request_type"] ->
     attrs (data out) !! key = attrs d !! key)
  /\ attrs (data out) !! "csr" = attrs d !! "csr"
  /\ attrs (data out) !! "requested_validity" = attrs d !! "requested_validity".
Proof.
  assert (G : forall key,
             key ∉ ["certificate"; "expires_on"; "hostnames"; "request_type"] ->
             attrs (data (resourceCloudflareOriginCACertificateRead d client)) !! key
             = attrs d !! key).
  { intros key Hk.
    assert (Hne : forall k', k' ∈ ["certificate"; "expires_on"; "hostnames"; "request_type"] ->
                             k' <> key) by (intros k' Hin ->; exact (Hk Hin)).
    unfold resourceCloudflareOriginCACertificateRead.
    destruct (OriginCertificate client (Id d)) as [e|cert].
    - destruct (Contains (Error e) not_found_message); reflexivity.
    - destruct (bool_decide (RevokedAt cert ≠ Time_zero)); [reflexivity|].
      simpl. rewrite !lookup_insert_ne; [reflexivity|..]; apply Hne;
        rewrite !elem_of_cons; tauto. }
  cbv zeta. split; [exact G|].
  split; apply G; rewrite !elem_of_cons, elem_of_nil;
    intros [?|[?|[?|[?|[]]]]]; discriminate.
Qed.

End WithStdlib.

(** C8. Delete issues exactly one call, the revocation of the stored id;
    when it succeeds the id is cleared and nil returned, when it fails the
    error is returned wrapped and the resource data is left alone. *)
Theorem delete_revokes (d : ResourceData) (client : API) :
  let out := resourceCloudflareOriginCACertificateDelete d client in
  calls out = [CallRevokeOriginCertificate (Id d)]
  /\ (forall c, RevokeOriginCertificate client (Id d) = inr c ->
        Id (data out) = "" /\ attrs (data out) = attrs d /\ err out = None)
  /\ (forall e, RevokeOriginCertificate client (Id d) = inl e ->
        data out = d
        /\ err out = Some (Errorf "Error revoking Cloudflare OriginCACertificate: %s" [Error e])).
Proof.
  unfold resourceCloudflareOriginCACertificateDelete.
  destruct (RevokeOriginCertificate client (Id d)) as [e|c]; simpl;
    repeat split; intros; congruence.
Qed.

Lemma validateCSR_rejects_and_accepts_witness :
  validateCSR (lib := sample_lib) (VString "not a PEM block") "csr"
    = Some ([], [Errorf "%q: invalid PEM data" ["csr"]])
  /\ validateCSR (lib := sample_lib) (VString "-x") "csr"
    = Some ([], [Errorf "%q: %s" ["csr"; "asn1: structure error: tags don't match"]])
  /\ validateCSR (lib := sample_lib) (VString "-0") "csr" = Some ([], []).
Proof.
  split; [|split].
  - destruct (@validateCSR_rejects_and_accepts sample_lib "not a PEM block" "csr")
      as [Hnone _].
    destruct (Hnone eq_refl) as [errs [Hv [-> _]]]. exact Hv.
  - destruct (@validateCSR_rejects_and_accepts sample_lib "-x" "csr") as [_ [Hbad _]].
    destruct (Hbad (mkBlock "CERTIFICATE REQUEST" ∅ ["x"%byte])
                (errors_New "asn1: structure error: tags don't match") eq_refl eq_refl)
      as [errs [Hv [-> _]]].
    exact Hv.
  - destruct (@validateCSR_rejects_and_accepts sample_lib "-0" "csr") as [_ [_ Hok]].
    exact (Hok (mkBlock "CERTIFICATE REQUEST" ∅ ["0"%byte]) ["0"%byte] eq_refl eq_refl).
Defined.

Lemma validateCSR_first_block_only_witness :
  validateCSR (lib := sample_lib) (VString "-0 and more after the block") "csr" = Some ([], [])
  /\ validateCSR (lib := sample_lib) (VString "-0 and more after the block") "csr"
     = validateCSR (lib := sample_lib) (VString "-0") "csr".
Proof.
  destruct (@validateCSR_first_block_only sample_lib "csr") as [Hrest [Hsame _]].
  split.
  - exact (Hrest "-0 and more after the block"
             (mkBlock "CERTIFICATE REQUEST" ∅ ["0"%byte])
             (bytes_of_string " and more after the block") ["0"%byte] eq_refl eq_refl).
  - exact (Hsame "-0 and more after the block" "-0" eq_refl).
Defined.

Lemma read_lookup_error_witness :
  (let out := resourceCloudflareOriginCACertificateRead (lib := sample_lib)
                (sample_data "gone") sample_client in
   Id (data out) = "" /\ attrs (data out) = attrs (sample_data "gone") /\ err out = None)
  /\ (let out := resourceCloudflareOriginCACertificateRead (lib := sample_lib)
                   (sample_data "other") sample_client in
      data out = sample_data "other"
      /\ err out = Some (Errorf "Error finding OriginCACertificate %q: %s"
                           ["other"; "HTTP status 500: internal error"])).
Proof.
  split.
  - apply (proj1 (@read_lookup_error sample_lib (sample_data "gone") sample_client
                    (errors_New "HTTP status 404: Failed to read certificate from Database (1101)")
                    eq_refl)).
    exists "HTTP status 404: ", " (1101)". reflexivity.
  - apply (proj2 (@read_lookup_error sample_lib (sample_data "other") sample_client
                    (errors_New "HTTP status 500: internal error") eq_refl)).
    intros Hc.
    apply (GoFacts.Contains_spec "HTTP status 500: internal error"
             "Failed to read certificate from Database") in Hc.
    vm_compute in Hc. discriminate Hc.
Defined.


Lemma read_frame_witness :
  let out := resourceCloudflareOriginCACertificateRead (lib := sample_lib)
               (sample_data "live") sample_client in
  attrs (data out) !! "csr" = Some (VString "-0")
  /\ attrs (data out) !! "requested_validity" = Some (VInt 5475).
Proof.
  destruct (@read_frame sample_lib (sample_data "live") sample_client) as [Hframe _].
  split.
  - rewrite (Hframe "csr"); [reflexivity|].
    rewrite !elem_of_cons, elem_of_nil. intros [?|[?|[?|[?|[]]]]]; discriminate.
  - rewrite (Hframe "requested_validity"); [reflexivity|].
    rewrite !elem_of_cons, elem_of_nil. intros [?|[?|[?|[?|[]]]]]; discriminate.
Defined.

Lemma delete_revokes_witness :
  (let out := resourceCloudflareOriginCACertificateDelete (sample_data "live") sample_client in
   calls out = [CallRevokeOriginCertificate "live"] /\ Id (data out) = "" /\ err out = None)
  /\ (let out := resourceCloudflareOriginCACertificateDelete (sample_data "gone") sample_client in
      data out = sample_data "gone"
      /\ err out = Some (Errorf "Error revoking Cloudflare OriginCACertificate: %s"
                           ["HTTP status 500: internal error"])).
Proof.
  split.
  - destruct (delete_revokes (sample_data "live") sample_client) as [Hcalls [Hok _]].
    destruct (Hok revoked_cert eq_refl) as [Hid [_ He]].
    split; [exact Hcalls | split; [exact Hid | exact He]].
  - destruct (delete_revokes (sample_data "gone") sample_client) as [_ [_ Hfail]].
    exact (Hfail (errors_New "HTTP status 500: internal error") eq_refl).
Defined.

End OriginCAFacts.

(** ** Origin CA certificate resource: Create and the life cycle *)

Module OriginCALifecycleFacts.
Import OriginCA OriginCALifecycle.

Lemma collect_hostnames_id (l : list string) : collect_hostnames l = l.
Proof.
  unfold collect_hostnames.
  assert (G : forall acc : list string,
             foldl (fun hostnames h => (hostnames ++ [h])%list) acc l = (acc ++ l)%list).
  { induction l as [|x l IH]; intros acc; simpl.
    - now rewrite app_nil_r.
    - rewrite IH, <- app_assoc. reflexivity. }
  apply G.
Qed.

(** Hostnames of distinct hash codes: the set is that of the list. *)
Lemma hostname_set_members (hs : list string) (s : gset string) :
  (forall x y, x ∈ hs -> y ∈ hs -> HashString x = HashString y -> x = y) ->
  (forall h, h ∈ hs <-> h ∈ s) -> hostname_set hs = s.
Proof.
  intros Hd H. apply set_eq. intros h.
  rewrite (OriginCAFacts.elem_of_hostname_set_distinct_codes hs h Hd). apply H.
Qed.

Lemma hostname_set_ext (hs hs' : list string) :
  (forall x y, x ∈ hs -> y ∈ hs -> HashString x = HashString y -> x = y) ->
  (forall h, h ∈ hs <-> h ∈ hs') -> hostname_set hs = hostname_set hs'.
Proof.
  intros Hd H. apply hostname_set_members; [exact Hd|].
  intros h. rewrite OriginCAFacts.elem_of_hostname_set_distinct_codes; [apply H|].
  intros x y Hx Hy. apply Hd; now apply H.
Qed.

Lemma hostname_set_collision_free (hs : list string) : collision_free (hostname_set hs).
Proof. intros x y. apply OriginCAFacts.hostname_set_codes_distinct. Qed.

Lemma well_typed_lookup (d : ResourceData) (key : string) (v : value) :
  well_typed d -> attrs d !! key = Some v ->
  Type_ <$> resourceCloudflareOriginCACertificate !! key = Some (type_of v).
Proof. intros Hw Hl. exact (Hw key v Hl). Qed.

Lemma well_typed_Set (d : ResourceData) (key : string) (v : value) :
  Type_ <$> resourceCloudflareOriginCACertificate !! key = Some (type_of v) ->
  well_typed d -> well_typed (ResourceData_Set d key v).
Proof. intros Hk Hw. unfold well_typed; simpl. now apply map_Forall_insert_2. Qed.

Lemma typed_string (d : ResourceData) (key : string) :
  well_typed d ->
  Type_ <$> resourceCloudflareOriginCACertificate !! key = Some TypeString ->
  assert_string (Get d key) = Some (attr_string d key).
Proof.
  intros Hw Hk. unfold Get, attr_string.
  destruct (attrs d !! key) as [v|] eqn:Hl.
  - pose proof (well_typed_lookup d key v Hw Hl) as Ht. rewrite Hk in Ht.
    destruct v; simpl in Ht; try discriminate. reflexivity.
  - destruct (resourceCloudflareOriginCACertificate !! key) as [sch|]; [|discriminate].
    simpl in Hk |- *. injection Hk as Hk. unfold compose. rewrite Hk. reflexivity.
Qed.

Lemma typed_set (d : ResourceData) (key : string) :
  well_typed d ->
  Type_ <$> resourceCloudflareOriginCACertificate !! key = Some TypeSet ->
  assert_set (Get d key) = Some (attr_set d key).
Proof.
  intros Hw Hk. unfold Get, attr_set.
  destruct (attrs d !! key) as [v|] eqn:Hl.
  - pose proof (well_typed_lookup d key v Hw Hl) as Ht. rewrite Hk in Ht.
    destruct v; simpl in Ht; try discriminate. reflexivity.
  - destruct (resourceCloudflareOriginCACertificate !! key) as [sch|]; [|discriminate].
    simpl in Hk |- *. injection Hk as Hk. unfold compose. rewrite Hk. reflexivity.
Qed.

(** What [GetOk] and the assignment under [if ok] come to for an integer
    attribute: the attribute, 0 when it is not set. *)
Lemma typed_validity (d : ResourceData) (c : OriginCACertificate) :
  well_typed d -> RequestValidity c = 0 ->
  forall requestValidity ok,
    GetOk d "requested_validity" = (requestValidity, ok) ->
    (if ok then with_RequestValidity c <$> assert_int requestValidity else Some c)
    = Some (with_RequestValidity c (attr_int d "requested_validity")).
Proof.
  intros Hw Hc rv ok. unfold GetOk, attr_int.
  assert (Hself : with_RequestValidity c 0 = c)
    by (destruct c; simpl in Hc; subst; reflexivity).
  destruct (attrs d !! "requested_validity") as [v|] eqn:Hl.
  - pose proof (well_typed_lookup d _ v Hw Hl) as Ht.
    destruct v as [s|n|s]; try (vm_compute in Ht; discriminate Ht).
    simpl. intros [= <- <-].
    destruct (bool_decide (VInt n ≠ VInt 0)) eqn:Hz; simpl; [reflexivity|].
    apply bool_decide_eq_false_1 in Hz.
    assert (n = 0) as ->
      by (destruct (decide (n = 0)); [assumption | exfalso; apply Hz; congruence]).
    now rewrite Hself.
  - intros [= <- <-]. now rewrite Hself.
Qed.

Section WithLibraries.
Context `{lib : Stdlib} `{sdk : SDK}.

(** Create on well-typed data: no assertion panics, and one request goes
    out, the configured one. *)
Lemma create_unfold (d : ResourceData) (client : Client) :
  well_typed d ->
  resourceCloudflareOriginCACertificateCreate d client
  = Some
      match CreateOriginCertificate client (configured_request d) with
      | inl e =>
          mkResult d (Some (Errorf "Error creating origin certificate: %s" [Error e]))
            [RequestCreateOriginCertificate (configured_request d)]
      | inr cert =>
          mkResult
            (ResourceData_Set
               (ResourceData_Set (SetId d (ID cert)) "certificate"
                  (VString (Certificate cert)))
               "expires_on" (VString (Time_Format (ExpiresOn cert) RFC3339)))
            None [RequestCreateOriginCertificate (configured_request d)]
      end.
Proof.
  intros Hw. unfold resourceCloudflareOriginCACertificateCreate.
  rewrite (typed_set d "hostnames" Hw) by reflexivity. simpl.
  rewrite (typed_string d "csr" Hw) by reflexivity. simpl.
  rewrite (typed_string d "request_type" Hw) by reflexivity. simpl.
  rewrite collect_hostnames_id.
  destruct (GetOk d "requested_validity") as [requestValidity ok] eqn:Hg.
  rewrite (typed_validity d
             (certInput_of (attr_string d "csr") (Set_List (attr_set d "hostnames"))
                (attr_string d "request_type"))
             Hw eq_refl requestValidity ok Hg).
  simpl. unfold configured_request, with_RequestValidity, certInput_of. simpl.
  destruct (CreateOriginCertificate client _); reflexivity.
Qed.

(** X1. On resource data typed as the schema says, Create does not panic
    and sends exactly one request: the csr and request type of the
    configuration, the members of the hostname set, and as validity the
    [requested_validity] attribute, 0 when it is unset (the test [ok] of
    [GetOk] makes no difference); id, certificate and times are left zero. *)
Theorem create_sends_configuration (d : ResourceData) (client : Client) :
  well_typed d ->
  (forall s h, h ∈ Set_List s <-> h ∈ s) ->
  exists out input,
    resourceCloudflareOriginCACertificateCreate d client = Some out
    /\ requests out = [RequestCreateOriginCertificate input]
    /\ CSR input = attr_string d "csr"
    /\ RequestType input = attr_string d "request_type"
    /\ (forall h, h ∈ Hostnames input <-> h ∈ attr_set d "hostnames")
    /\ RequestValidity input = attr_int d "requested_validity"
    /\ ID input = "" /\ Certificate input = ""
    /\ ExpiresOn input = Time_zero /\ RevokedAt input = Time_zero.
Proof.
  intros Hw Hlist. rewrite (create_unfold d client Hw).
  eexists; exists (configured_request d). split; [reflexivity|].
  split; [destruct (CreateOriginCertificate client (configured_request d)); reflexivity|].
  simpl. repeat split; try reflexivity; apply Hlist.
Qed.

(** X2. When the API refuses the request, Create returns the error wrapped
    and records nothing: the resource data, its id included, is as before. *)
Theorem create_failure_records_nothing (d : ResourceData) (client : Client) (e : lib_error) :
  well_typed d ->
  CreateOriginCertificate client (configured_request d) = inl e ->
  exists out,
    resourceCloudflareOriginCACertificateCreate d client = Some out
    /\ state out = d
    /\ failure out = Some (Errorf "Error creating origin certificate: %s" [Error e]).
Proof.
  intros Hw He. rewrite (create_unfold d client Hw), He. eauto.
Qed.

(** X3. When the API issues the certificate, Create returns nil, takes the
    issued id, stores the certificate text and the formatted expiry, and
    leaves every other attribute as configured: the hostnames and request
    type the API answers are not read. *)
Theorem create_success_frame (d : ResourceData) (client : Client) (cert : OriginCACertificate) :
  well_typed d ->
  CreateOriginCertificate client (configured_request d) = inr cert ->
  exists out,
    resourceCloudflareOriginCACertificateCreate d client = Some out
    /\ failure out = None
    /\ Id (state out) = ID cert
    /\ attrs (state out) !! "certificate" = Some (VString (Certificate cert))
    /\ attrs (state out) !! "expires_on"
       = Some (VString (Time_Format (ExpiresOn cert) "2006-01-02T15:04:05Z07:00"))
    /\ (forall key, key <> "certificate" -> key <> "expires_on" ->
          attrs (state out) !! key = attrs d !! key).
Proof.
  intros Hw Hc. rewrite (create_unfold d client Hw), Hc.
  eexists. split; [reflexivity|]. simpl.
  split; [reflexivity|]. split; [reflexivity|].
  split; [by simplify_map_eq|]. split; [by simplify_map_eq|].
  intros key H1 H2. by rewrite !lookup_insert_ne.
Qed.

(** X4. Create, Read and Delete keep the resource data typed as the schema
    says: whatever they store is an attribute of the schema with a value of
    its declared type. *)
Theorem lifecycle_preserves_typing (d : ResourceData) (client : Client) :
  well_typed d ->
  well_typed (data (resourceCloudflareOriginCACertificateRead d (api client)))
  /\ well_typed (data (resourceCloudflareOriginCACertificateDelete d (api client)))
  /\ (forall out, resourceCloudflareOriginCACertificateCreate d client = Some out ->
        well_typed (state out)).
Proof.
  intros Hw. split; [|split].
  - unfold resourceCloudflareOriginCACertificateRead.
    destruct (OriginCertificate (api client) (Id d)) as [e|cert].
    + destruct (Contains (Error e) not_found_message); exact Hw.
    + destruct (bool_decide (RevokedAt cert ≠ Time_zero)); [exact Hw|]. simpl.
      repeat (apply well_typed_Set; [reflexivity|]). exact Hw.
  - unfold resourceCloudflareOriginCACertificateDelete.
    destruct (RevokeOriginCertificate (api client) (Id d)); exact Hw.
  - intros out. rewrite (create_unfold d client Hw). intros [= <-].
    destruct (CreateOriginCertificate client (configured_request d)) as [e|cert];
      [exact Hw|]. simpl.
    repeat (apply well_typed_Set; [reflexivity|]). exact Hw.
Qed.

(** X5. No drift after Create: when the lookup of the issued id answers the
    issued certificate, not revoked, with the hostnames and request type
    that were configured, the Read that follows a successful Create makes
    one lookup, returns nil and changes nothing. The configured set is one
    a [schema.Set] can hold: no two of its hostnames share a hash code. *)
Theorem read_after_create_is_stable
    (d : ResourceData) (client : Client) (cert : OriginCACertificate)
    (hs : gset string) :
  well_typed d ->
  CreateOriginCertificate client (configured_request d) = inr cert ->
  OriginCertificate (api client) (ID cert) = inr cert ->
  RevokedAt cert = Time_zero ->
  attrs d !! "hostnames" = Some (VSet hs) ->
  collision_free hs ->
  (forall h, h ∈ Hostnames cert <-> h ∈ hs) ->
  attrs d !! "request_type" = Some (VString (RequestType cert)) ->
  exists out,
    resourceCloudflareOriginCACertificateCreate d client = Some out
    /\ resourceCloudflareOriginCACertificateRead (state out) (api client)
       = mkOutcome (state out) None [CallOriginCertificate (ID cert)].
Proof.
  intros Hw Hc Hl Hr Hh Hfree Hm Ht. rewrite (create_unfold d client Hw), Hc.
  eexists. split; [reflexivity|]. simpl.
  unfold resourceCloudflareOriginCACertificateRead. simpl. rewrite Hl.
  rewrite bool_decide_eq_false_2 by (intros Hn; exact (Hn Hr)).
  f_equal. unfold ResourceData_Set, SetId; simpl. f_equal.
  assert (Hs : hostname_set (Hostnames cert) = hs).
  { apply hostname_set_members; [|exact Hm].
    intros x y Hx Hy. apply Hfree; now apply Hm. }
  rewrite Hs.
  rewrite (insert_id _ "certificate") by (by simplify_map_eq).
  rewrite (insert_id _ "expires_on") by (by simplify_map_eq).
  rewrite (insert_id _ "hostnames") by (by simplify_map_eq).
  rewrite (insert_id _ "request_type") by (by simplify_map_eq).
  reflexivity.
Qed.

(** X6. Read is idempotent on a live certificate: when the lookup answers a
    certificate that is not revoked, reading again gives the same outcome. *)
Theorem read_idempotent_on_live (d : ResourceData) (client : API) (cert : OriginCACertificate) :
  OriginCertificate client (Id d) = inr cert ->
  RevokedAt cert = Time_zero ->
  resourceCloudflareOriginCACertificateRead
    (data (resourceCloudflareOriginCACertificateRead d client)) client
  = resourceCloudflareOriginCACertificateRead d client.
Proof.
  intros Hl Hr.
  assert (E : resourceCloudflareOriginCACertificateRead d client
              = mkOutcome
                  (ResourceData_Set
                     (ResourceData_Set
                        (ResourceData_Set
                           (ResourceData_Set d "certificate" (VString (Certificate cert)))
                           "expires_on" (VString (Time_Format (ExpiresOn cert) RFC3339)))
                        "hostnames" (VSet (hostname_set (Hostnames cert))))
                     "request_type" (VString (RequestType cert)))
                  None [CallOriginCertificate (Id d)]).
  { unfold resourceCloudflareOriginCACertificateRead. rewrite Hl.
    now rewrite bool_decide_eq_false_2 by (intros Hn; exact (Hn Hr)). }
  rewrite E. simpl.
  unfold resourceCloudflareOriginCACertificateRead. simpl. rewrite Hl.
  rewrite bool_decide_eq_false_2 by (intros Hn; exact (Hn Hr)).
  f_equal. unfold ResourceData_Set; simpl. f_equal.
  rewrite (insert_id _ "certificate") by (by simplify_map_eq).
  rewrite (insert_id _ "expires_on") by (by simplify_map_eq).
  rewrite (insert_id _ "hostnames") by (by simplify_map_eq).
  rewrite (insert_id _ "request_type") by (by simplify_map_eq).
  reflexivity.
Qed.

(** X9. [validateCSR] reads nothing of the PEM block but its payload: two
    inputs whose first blocks carry the same bytes are judged alike, whatever
    the type and the headers of the blocks. *)
Theorem validateCSR_payload_only (s1 s2 k : string) (b1 b2 : Block) (rest1 rest2 : list byte) :
  pem_Decode (bytes_of_string s1) = (Some b1, rest1) ->
  pem_Decode (bytes_of_string s2) = (Some b2, rest2) ->
  Bytes b1 = Bytes b2 ->
  validateCSR (VString s1) k = validateCSR (VString s2) k.
Proof.
  intros H1 H2 Hb. unfold validateCSR. rewrite H1, H2, Hb. reflexivity.
Qed.

End WithLibraries.

Lemma string_app_assoc (a b c : string) : (a +:+ b) +:+ c = a +:+ (b +:+ c).
Proof.
  induction a as [|x a IH]; [reflexivity|].
  change (String x ((a +:+ b) +:+ c) = String x (a +:+ (b +:+ c))).
  now rewrite IH.
Qed.

Lemma Contains_wrapped (s sub pre post : string) :
  Contains s sub = true -> Contains (pre +:+ s +:+ post) sub = true.
Proof.
  rewrite !GoFacts.Contains_spec. intros [a [b ->]].
  exists (pre +:+ a), (b +:+ post).
  now rewrite !string_app_assoc.
Qed.

(** X7. Whatever the API answers, Read makes one call, the lookup of the
    stored id; it keeps the id or clears it; when it returns an error the
    resource data is untouched, and when it clears the id it changes no
    attribute. *)
Theorem read_one_lookup `{lib : Stdlib} (d : ResourceData) (client : API) :
  let out := resourceCloudflareOriginCACertificateRead d client in
  calls out = [CallOriginCertificate (Id d)]
  /\ (Id (data out) = Id d \/ Id (data out) = "")
  /\ (forall e, err out = Some e -> data out = d)
  /\ (Id (data out) <> Id d -> attrs (data out) = attrs d).
Proof.
  unfold resourceCloudflareOriginCACertificateRead.
  destruct (OriginCertificate client (Id d)) as [e|cert].
  - destruct (Contains (Error e) not_found_message); simpl;
      repeat split; auto; try discriminate.
  - destruct (bool_decide (RevokedAt cert ≠ Time_zero)); simpl;
      repeat split; auto; try discriminate.
    intros Hn. now contradiction Hn.
Qed.

(** Of two hostnames of one hash code the set keeps the one listed first. *)
Example hostname_set_first_wins :
  HashString "plumless" = HashString "buckeroo"
  /\ hostname_set ["plumless"; "buckeroo"] = {["plumless"]}
  /\ hostname_set ["buckeroo"; "plumless"] = {["buckeroo"]}.
Proof. repeat split; vm_compute; reflexivity. Qed.

(** X8. As long as no two hostnames of the answer share a hash code, the
    hostnames Read stores do not depend on the order or on repetitions in
    the list the API answers: two answers that agree on the certificate,
    expiry, request type and revocation time and list the same hosts give
    the same outcome. (With two hostnames of one code the first listed is
    kept, so the order shows.) *)
Theorem read_hostnames_order_irrelevant `{lib : Stdlib}
    (d : ResourceData) (client1 client2 : API) (cert1 cert2 : OriginCACertificate) :
  OriginCertificate client1 (Id d) = inr cert1 ->
  OriginCertificate client2 (Id d) = inr cert2 ->
  (forall x y, x ∈ Hostnames cert1 -> y ∈ Hostnames cert1 ->
     HashString x = HashString y -> x = y) ->
  (forall h, h ∈ Hostnames cert1 <-> h ∈ Hostnames cert2) ->
  Certificate cert1 = Certificate cert2 ->
  ExpiresOn cert1 = ExpiresOn cert2 ->
  RequestType cert1 = RequestType cert2 ->
  RevokedAt cert1 = RevokedAt cert2 ->
  resourceCloudflareOriginCACertificateRead d client1
  = resourceCloudflareOriginCACertificateRead d client2.
Proof.
  intros H1 H2 Hd Hh Hc He Ht Hr. unfold resourceCloudflareOriginCACertificateRead.
  rewrite H1, H2, Hc, He, Ht, Hr, (hostname_set_ext _ _ Hd Hh). reflexivity.
Qed.

(** X10. The test for a vanished certificate survives wrapping: when Read
    takes an error for the absence of the certificate, it does so too for
    any error whose text carries that error's text inside, and clears the
    id without an error. *)
Theorem read_not_found_survives_wrapping `{lib : Stdlib}
    (d : ResourceData) (client1 client2 : API) (e : lib_error) (pre post : string) :
  OriginCertificate client1 (Id d) = inl e ->
  err (resourceCloudflareOriginCACertificateRead d client1) = None ->
  OriginCertificate client2 (Id d) = inl (errors_New (pre +:+ Error e +:+ post)) ->
  resourceCloudflareOriginCACertificateRead d client2
  = mkOutcome (SetId d "") None [CallOriginCertificate (Id d)].
Proof.
  intros H1 Hn H2. unfold resourceCloudflareOriginCACertificateRead in *.
  rewrite H1 in Hn. rewrite H2. simpl.
  destruct (Contains (Error e) not_found_message) eqn:Hc; [|discriminate Hn].
  now rewrite (Contains_wrapped _ _ pre post Hc).
Qed.

Lemma planned_data_well_typed (csr : string) : well_typed (planned_data csr).
Proof.
  unfold well_typed, planned_data; simpl.
  repeat (apply map_Forall_insert_2; [reflexivity|]).
  apply map_Forall_empty.
Qed.

Lemma planned_hostnames_collision_free :
  collision_free {["example.com"; "*.example.com"]}.
Proof.
  intros x y Hx Hy.
  apply elem_of_union in Hx as [Hx|Hx]; apply elem_of_singleton in Hx;
    apply elem_of_union in Hy as [Hy|Hy]; apply elem_of_singleton in Hy;
    subst; intros He; first [reflexivity | vm_compute in He; discriminate He].
Qed.

Lemma sample_sdk_lists_members (s : gset string) (h : string) :
  h ∈ Set_List (SDK := sample_sdk) s <-> h ∈ s.
Proof. apply elem_of_elements. Qed.

Lemma create_sends_configuration_witness :
  exists out input,
    resourceCloudflareOriginCACertificateCreate (lib := sample_lib) (sdk := sample_sdk)
      (planned_data "-0") sample_full_client = Some out
    /\ requests out = [RequestCreateOriginCertificate input]
    /\ CSR input = "-0" /\ RequestType input = "origin-rsa"
    /\ RequestValidity input = 5475.
Proof.
  destruct (@create_sends_configuration sample_lib sample_sdk (planned_data "-0")
              sample_full_client (planned_data_well_typed "-0") sample_sdk_lists_members)
    as (out & input & Hc & Hreq & Hcsr & Hrt & _ & Hv & _).
  exists out, input. repeat split; assumption.
Defined.

Lemma create_failure_records_nothing_witness :
  exists out,
    resourceCloudflareOriginCACertificateCreate (lib := sample_lib) (sdk := sample_sdk)
      (planned_data "garbage") sample_full_client = Some out
    /\ state out = planned_data "garbage"
    /\ failure out = Some (Errorf "Error creating origin certificate: %s"
                             ["HTTP status 400: invalid CSR"]).
Proof.
  exact (@create_failure_records_nothing sample_lib sample_sdk (planned_data "garbage")
           sample_full_client (errors_New "HTTP status 400: invalid CSR")
           (planned_data_well_typed "garbage") eq_refl).
Defined.

Lemma create_success_frame_witness :
  exists out,
    resourceCloudflareOriginCACertificateCreate (lib := sample_lib) (sdk := sample_sdk)
      (planned_data "-0") sample_full_client = Some out
    /\ failure out = None
    /\ Id (state out) = "live"
    /\ attrs (state out) !! "csr" = Some (VString "-0").
Proof.
  destruct (@create_success_frame sample_lib sample_sdk (planned_data "-0")
              sample_full_client live_cert (planned_data_well_typed "-0") eq_refl)
    as (out & Hc & Hf & Hid & _ & _ & Hframe).
  exists out. split; [exact Hc|]. split; [exact Hf|]. split; [exact Hid|].
  rewrite (Hframe "csr"); [reflexivity | discriminate | discriminate].
Defined.

Lemma lifecycle_preserves_typing_witness :
  well_typed (data (resourceCloudflareOriginCACertificateRead (lib := sample_lib)
                      (SetId (planned_data "-0") "live") sample_client)).
Proof.
  apply (proj1 (@lifecycle_preserves_typing sample_lib sample_sdk
                  (SetId (planned_data "-0") "live") sample_full_client
                  (planned_data_well_typed "-0"))).
Defined.

Lemma read_after_create_is_stable_witness :
  exists out,
    resourceCloudflareOriginCACertificateCreate (lib := sample_lib) (sdk := sample_sdk)
      (planned_data "-0") sample_full_client = Some out
    /\ resourceCloudflareOriginCACertificateRead (lib := sample_lib) (state out) sample_client
       = mkOutcome (state out) None [CallOriginCertificate "live"].
Proof.
  apply (@read_after_create_is_stable sample_lib sample_sdk (planned_data "-0")
           sample_full_client live_cert {["example.com"; "*.example.com"]}
           (planned_data_well_typed "-0") eq_refl eq_refl eq_refl eq_refl
           planned_hostnames_collision_free).
  - intros h. simpl. rewrite !elem_of_cons, elem_of_nil, elem_of_union, !elem_of_singleton.
    tauto.
  - reflexivity.
Defined.

Lemma read_idempotent_on_live_witness :
  resourceCloudflareOriginCACertificateRead (lib := sample_lib)
    (data (resourceCloudflareOriginCACertificateRead (lib := sample_lib)
             (sample_data "live") sample_client)) sample_client
  = resourceCloudflareOriginCACertificateRead (lib := sample_lib)
      (sample_data "live") sample_client.
Proof.
  exact (@read_idempotent_on_live sample_lib (sample_data "live") sample_client live_cert
           eq_refl eq_refl).
Defined.

Lemma validateCSR_payload_only_witness :
  validateCSR (lib := sample_lib) (VString "-0 one rest") "csr"
  = validateCSR (lib := sample_lib) (VString "-0 another") "csr".
Proof.
  exact (@validateCSR_payload_only sample_lib "-0 one rest" "-0 another" "csr"
           (mkBlock "CERTIFICATE REQUEST" ∅ ["0"%byte])
           (mkBlock "CERTIFICATE REQUEST" ∅ ["0"%byte])
           (bytes_of_string " one rest") (bytes_of_string " another")
           eq_refl eq_refl eq_refl).
Defined.

Lemma read_one_lookup_witness :
  calls (resourceCloudflareOriginCACertificateRead (lib := sample_lib)
           (sample_data "other") sample_client) = [CallOriginCertificate "other"]
  /\ data (resourceCloudflareOriginCACertificateRead (lib := sample_lib)
             (sample_data "other") sample_client) = sample_data "other".
Proof.
  destruct (@read_one_lookup sample_lib (sample_data "other") sample_client)
    as (Hcalls & _ & Herr & _).
  split; [exact Hcalls|].
  exact (Herr (Errorf "Error finding OriginCACertificate %q: %s"
                 ["other"; "HTTP status 500: internal error"]) eq_refl).
Defined.

Lemma read_hostnames_order_irrelevant_witness :
  resourceCloudflareOriginCACertificateRead (lib := sample_lib) (sample_data "live")
    sample_client
  = resourceCloudflareOriginCACertificateRead (lib := sample_lib) (sample_data "live")
      reordering_client.
Proof.
  apply (@read_hostnames_order_irrelevant sample_lib (sample_data "live") sample_client
           reordering_client live_cert reordered_cert eq_refl eq_refl);
    try reflexivity.
  - intros x y Hx Hy. simpl in Hx, Hy.
    rewrite !elem_of_cons, elem_of_nil in Hx.
    rewrite !elem_of_cons, elem_of_nil in Hy.
    destruct Hx as [->|[->|[->|[]]]]; destruct Hy as [->|[->|[->|[]]]];
      intros He; first [reflexivity | vm_compute in He; discriminate He].
  - intros h. simpl. rewrite !elem_of_cons, elem_of_nil. tauto.
Defined.

Lemma read_not_found_survives_wrapping_witness :
  resourceCloudflareOriginCACertificateRead (lib := sample_lib) (sample_data "gone")
    wrapping_client
  = mkOutcome (SetId (sample_data "gone") "") None [CallOriginCertificate "gone"].
Proof.
  exact (@read_not_found_survives_wrapping sample_lib (sample_data "gone") sample_client
           wrapping_client
           (errors_New "HTTP status 404: Failed to read certificate from Database (1101)")
           "error from makeRequest: " " (request id 7)" eq_refl eq_refl eq_refl).
Defined.

End OriginCALifecycleFacts.

(** ** The migration test and its mock server *)

Module MigrateTestFacts.
Import RecordMigrate MigrateTest.

Section AnyMigrator.
Context {E : Type}.
Variable migrate : Z -> InstanceState -> option InstanceState * option E.

(** The loop runs through exactly when every case does. *)
Lemma run_cases_Pass_iff (l : list (string * testcase)) :
  run_cases migrate l = Pass <-> Forall (fun p => run_case migrate p.1 p.2 = Pass) l.
Proof.
  induction l as [|[tn tc] l IH]; simpl.
  - split; [constructor | reflexivity].
  - rewrite Forall_cons; simpl.
    destruct (run_case migrate tn tc) eqn:Hc; rewrite ?IH;
      split; try tauto; try discriminate; intros [? ?]; discriminate.
Qed.

(** A loop that stops reports the stop of one of its cases. *)
Lemma run_cases_stop (l : list (string * testcase)) (v : verdict E) :
  run_cases migrate l = v -> v <> Pass ->
  exists tn tc, (tn, tc) ∈ l /\ run_case migrate tn tc = v.
Proof.
  induction l as [|[tn tc] l IH]; simpl; intros Hv Hn.
  - congruence.
  - destruct (run_case migrate tn tc) eqn:Hc;
      try (exists tn, tc; split; [left | congruence]).
    destruct (IH Hv Hn) as (tn' & tc' & Hin & Hr).
    exists tn', tc'. split; [now right | exact Hr].
Qed.

(** X11. Go ranges over the table in an order of its own choosing: whether
    the test passes does not depend on it, and a test that fails reports a
    failure of one of the cases of the table. *)
Theorem test_verdict_order_independent (l l' : list (string * testcase)) :
  l ≡ₚ l' ->
  (run_cases migrate l = Pass <-> run_cases migrate l' = Pass)
  /\ (forall v, run_cases migrate l' = v -> v <> Pass ->
        exists tn tc, (tn, tc) ∈ l /\ run_case migrate tn tc = v).
Proof.
  intros Hp. split.
  - rewrite !run_cases_Pass_iff. now rewrite Hp.
  - intros v Hv Hn. destruct (run_cases_stop l' v Hv Hn) as (tn & tc & Hin & Hr).
    exists tn, tc. split; [now rewrite Hp | exact Hr].
Qed.

(** X12. [ShouldFail] is looked at only once the migration has failed: a
    case whose migration succeeds with the expected id passes whether or not
    it was meant to fail, so the test never reports a migration for
    succeeding. *)
Theorem should_fail_not_enforced (tn : string) (tc : testcase) (st : InstanceState) :
  migrate (StateVersion tc) {| ID := case_ID tc; Attributes := case_Attributes tc |}
  = (Some st, None) ->
  ID st = Expected tc ->
  run_case migrate tn tc = Pass
  /\ run_case migrate tn
       (mkCase (StateVersion tc) (case_ID tc) (case_Attributes tc) (Expected tc)
          (negb (ShouldFail tc))) = Pass.
Proof.
  intros Hm Hid. unfold run_case; simpl. rewrite Hm.
  rewrite bool_decide_eq_false_2 by (intros Hn; exact (Hn Hid)). auto.
Qed.

End AnyMigrator.

Lemma test_verdict_order_independent_witness :
  run_cases model_under_test (reverse (map_to_list cases)) = Pass
  <-> run_cases model_under_test (map_to_list cases) = Pass.
Proof.
  apply (test_verdict_order_independent model_under_test
           (reverse (map_to_list cases)) (map_to_list cases)).
  apply reverse_Permutation.
Defined.

Lemma should_fail_not_enforced_witness :
  run_case migrate_without_priority "mx_priority_mismatch"
    (case_of case_mx_priority_mismatch "12342092cbc4c391be33ce548713bba3" true) = Pass.
Proof.
  apply (should_fail_not_enforced migrate_without_priority "mx_priority_mismatch"
           (case_of case_mx_priority_mismatch "12342092cbc4c391be33ce548713bba3" true)
           (adopt case_mx_priority_mismatch
              (mkRecord "12342092cbc4c391be33ce548713bba3" "MX" "hashicorptest.com"
                 "some.registrar-servers.com" false 1 20))).
  - vm_compute. reflexivity.
  - reflexivity.
Defined.

(** X13. The table cannot tell a migrator that ignores the priority from
    one that honours it: in every order of the cases the test passes for
    the migrator that never looks at the priority, as it does for the
    migrator of the model. *)
Theorem test_passes_without_priority (l : list (string * testcase)) :
  l ≡ₚ map_to_list cases ->
  run_cases migrate_without_priority l = Pass
  /\ run_cases model_under_test l = Pass.
Proof.
  intros Hp. rewrite !run_cases_Pass_iff, !Hp, <- !run_cases_Pass_iff.
  split; vm_compute; reflexivity.
Qed.

Lemma test_passes_without_priority_witness :
  run_cases migrate_without_priority (reverse (map_to_list cases)) = Pass
  /\ run_cases model_under_test (reverse (map_to_list cases)) = Pass.
Proof.
  apply (test_passes_without_priority (reverse (map_to_list cases))).
  apply reverse_Permutation.
Defined.

Section Server.
Context `{url : NetURL}.

Lemma serve_first_match (pre post : list endpoint) (e : endpoint) (path : string)
    (w : ResponseWriter) :
  (forall e', e' ∈ pre -> BasePath e' <> path) -> BasePath e = path ->
  serve (pre ++ e :: post)%list path w = WriteHeader (Fprintln w (Body e)) 200.
Proof.
  intros Hpre He. induction pre as [|x pre IH]; simpl.
  - now rewrite bool_decide_eq_true_2.
  - rewrite bool_decide_eq_false_2.
    + apply IH. intros e' Hin. apply Hpre. now right.
    + intros Hx. apply (Hpre x); [now left | congruence].
Qed.

Lemma serve_no_match (endpoints : list endpoint) (path : string) (w : ResponseWriter) :
  (forall e, e ∈ endpoints -> BasePath e <> path) ->
  serve endpoints path w = WriteHeader w 400.
Proof.
  induction endpoints as [|x l IH]; intros Hno; simpl; [reflexivity|].
  rewrite bool_decide_eq_false_2.
  - apply IH. intros e Hin. apply Hno. now right.
  - intros Hx. apply (Hno x); [now left | congruence].
Qed.

Lemma endpoints_split (endpoints : list endpoint) (path : string) :
  (exists pre e post, endpoints = (pre ++ e :: post)%list
     /\ (forall e', e' ∈ pre -> BasePath e' <> path) /\ BasePath e = path)
  \/ (forall e, e ∈ endpoints -> BasePath e <> path).
Proof.
  induction endpoints as [|x l IH].
  - right. intros e Hin. now apply elem_of_nil in Hin.
  - destruct (decide (BasePath x = path)) as [Hx|Hx].
    + left. exists [], x, l. repeat split; [|exact Hx].
      intros e' Hin. now apply elem_of_nil in Hin.
    + destruct IH as [(pre & e & post & -> & Hpre & He) | Hno].
      * left. exists (x :: pre), e, post. repeat split; [|exact He].
        intros e' Hin. apply elem_of_cons in Hin as [-> | Hin]; [exact Hx | now apply Hpre].
      * right. intros e Hin. apply elem_of_cons in Hin as [-> | Hin]; [exact Hx | now apply Hno].
Qed.

(** X14. The mock server routes on the path alone. A request whose URI
    parses is answered as plain text: with status 200 and the body, plus a
    newline, of the first endpoint whose base path is the path of the URI
    (the [WriteHeader(200)] after the body changes nothing), or with status
    400 and no body when no endpoint has that path. The query is not
    looked at: two URIs with one path get one answer. *)
Theorem handler_routes_by_path (endpoints : list endpoint) (uri : string) (u : URL) :
  ParseRequestURI uri = inr u ->
  (exists w, handler endpoints new_response uri = Some w
     /\ content_type w = "text/plain"
     /\ ((exists pre e post,
            endpoints = (pre ++ e :: post)%list
            /\ (forall e', e' ∈ pre -> BasePath e' <> Path u)
            /\ BasePath e = Path u
            /\ status w = 200
            /\ written w = Body e +:+ String (ascii_of_nat 10) "")
         \/ ((forall e, e ∈ endpoints -> BasePath e <> Path u)
             /\ status w = 400 /\ written w = "")))
  /\ (forall uri' u', ParseRequestURI uri' = inr u' -> Path u' = Path u ->
        handler endpoints new_response uri' = handler endpoints new_response uri).
Proof.
  intros Hu. split.
  - unfold handler. rewrite Hu. eexists. split; [reflexivity|].
    destruct (endpoints_split endpoints (Path u))
      as [(pre & e & post & -> & Hpre & He) | Hno].
    + rewrite (serve_first_match pre post e (Path u) _ Hpre He). simpl.
      split; [reflexivity|]. left. exists pre, e, post. repeat split; assumption.
    + rewrite (serve_no_match endpoints (Path u) _ Hno). simpl.
      split; [reflexivity|]. right. repeat split; assumption.
  - intros uri' u' Hu' Hp. unfold handler. now rewrite Hu, Hu', Hp.
Qed.

End Server.

Lemma handler_routes_by_path_witness :
  (exists w, handler (url := sample_url) (mockEndpoints "ZONES" "RECORDS") new_response
               "/zones?name=hashicorptest.com" = Some w
             /\ status w = 200
             /\ written w = "ZONES" +:+ String (ascii_of_nat 10) "")
  /\ (exists w, handler (url := sample_url) (mockEndpoints "ZONES" "RECORDS") new_response
                  "/zones/42/dns_records" = Some w
                /\ status w = 400 /\ written w = "").
Proof.
  split.
  - destruct (@handler_routes_by_path sample_url (mockEndpoints "ZONES" "RECORDS")
                "/zones?name=hashicorptest.com" (mkURL "/zones" "name=hashicorptest.com")
                eq_refl) as [(w & Hw & _ & Hcases) _].
    exists w. split; [exact Hw|].
    injection Hw as <-. vm_compute. split; reflexivity.
  - destruct (@handler_routes_by_path sample_url (mockEndpoints "ZONES" "RECORDS")
                "/zones/42/dns_records" (mkURL "/zones/42/dns_records" "")
                eq_refl) as [(w & Hw & _ & Hcases) _].
    exists w. split; [exact Hw|].
    injection Hw as <-. vm_compute. split; reflexivity.
Defined.

End MigrateTestFacts.
